(** * Research-to-blog pipeline: a shallow embedding and its properties

    The development embeds the pipeline code and what is built around it:

    - [src/research_blog_orchestrator.py]: [SequentialWorkflow] (constructor
      and [run]), [ResearchToBlogOrchestrator] ([create_blog_from_topic]
      with its local helpers [extract_content] / [extract_metadata], and
      [cleanup]), and [demo_orchestration];
    - [src/langchain_blog_agent.py]: [LangChainBlogAgent.run] and
      [LangChainBlogAgent.sync_run], and the tools [format_blog_post] and
      [add_seo_elements];
    - [main.py]: the DevUI wrappers [BlogAgentForDevUI] and
      [OrchestratorAgentForDevUI];
    - [src/utils.py]: the validators of [AgentConfig].

    Python values are modelled by what the code observes of them: whether
    they are [None], a [str], or an object with optional [text], [content]
    and [metadata] attributes and a string conversion.  Calls that leave
    the process (an agent method, the LangChain executor, [close]) are
    modelled by their outcome and recorded in a trace, so that "stage k was
    never invoked" is a statement about the trace.  Console output
    ([print]) is not modelled. *)

From Stdlib Require Import String Ascii List Arith Bool Lia.
Import ListNotations.
Local Open Scope string_scope.
Local Open Scope list_scope.
Set Warnings "-register-all".

(** ** Python values *)

Module Py.

(** One entry of [intermediate_steps] as [LangChainBlogAgent.run] looks at
    it: a sequence shorter than two items, or a pair whose first item may
    carry a [tool] attribute and whose second item is seen through [str]. *)
Inductive step : Type :=
| ShortStep
| Step (tool : option string) (tool_output_str : string).

(** Values stored under a metadata key. *)
Inductive meta_value : Type :=
| MStr (s : string)
| MInt (n : nat)
| MSteps (steps : list step).

(** A metadata mapping; a Python dict keeps insertion order. *)
Definition mapping : Type := list (string * meta_value).

(** A reply value.  [VObj text content metadata str_conv] is any object
    that is neither [None] nor a [str]: each attribute is present or
    absent, and [str_conv] is what [str(obj)] returns. *)
Inductive value : Type :=
| VNone
| VStr (s : string)
| VObj (text content : option value) (metadata : option mapping)
       (str_conv : string).

Inductive attr : Type := a_text | a_content.

Definition getattr (v : value) (a : attr) : option value :=
  match v with
  | VObj text content _ _ =>
      match a with a_text => text | a_content => content end
  | _ => None
  end.

Definition hasattr (v : value) (a : attr) : bool :=
  match getattr v a with Some _ => true | None => false end.

Definition is_None (v : value) : bool :=
  match v with VNone => true | _ => false end.

Definition isinstance_str (v : value) : bool :=
  match v with VStr _ => true | _ => false end.

(** [str(v)], which is also what an f-string placeholder inserts. *)
Definition str (v : value) : string :=
  match v with
  | VNone => "None"
  | VStr s => s
  | VObj _ _ _ str_conv => str_conv
  end.

(** [getattr(v, 'metadata', {})] *)
Definition getattr_metadata (v : value) : mapping :=
  match v with
  | VObj _ _ (Some m) _ => m
  | _ => []
  end.

(** Exceptions: the class name and [str(e)].  They stand for instances of
    [Exception], which both [except Exception] and a bare [except] catch. *)
Record exn : Type := mkExn { exn_class : string; exn_str : string }.

End Py.
Import Py.

(** ** Effects: outcomes and the trace of outside calls *)

Inductive outcome (A : Type) : Type :=
| Returned (a : A)
| Raised (e : exn).
Arguments Returned {A} a.
Arguments Raised {A} e.

(** Who is being closed in [cleanup]. *)
Inductive role : Type := Research | Blog.

Inductive event : Type :=
| Call (stage : nat) (input : string)      (* stage [stage] of a workflow *)
| Transport (input : string)               (* the LangChain executor *)
| Close (who : role).                      (* [agent.close()] *)

Definition trace : Type := list event.

(** A computation extends the trace and returns or raises; the trace
    survives a raise. *)
Definition M (A : Type) : Type := trace -> trace * outcome A.

Definition ret {A} (a : A) : M A := fun t => (t, Returned a).

Definition raise {A} (e : exn) : M A := fun t => (t, Raised e).

Definition bind {A B} (m : M A) (f : A -> M B) : M B :=
  fun t =>
    match m t with
    | (t', Returned a) => f a t'
    | (t', Raised e) => (t', Raised e)
    end.

(** [try: body  except ...: handler] catching every exception the model
    has. *)
Definition try_except {A} (body : M A) (handler : exn -> M A) : M A :=
  fun t =>
    match body t with
    | (t', Returned a) => (t', Returned a)
    | (t', Raised e) => handler e t'
    end.

(** An outside call: log the event, then take the callee's outcome. *)
Definition perform {A} (ev : event) (o : outcome A) : M A :=
  fun t => (t ++ [ev], o).

Notation "x <- m ;; k" := (bind m (fun x => k))
  (at level 61, m at next level, right associativity).
Notation "m ;;; k" := (bind m (fun _ => k))
  (at level 61, right associativity).

(** ** Result normalisation ([create_blog_from_topic], lines 217-234) *)

Definition extract_content (result : value) : value :=
  if is_None result then VStr "No content generated"
  else if isinstance_str result then result
  else match getattr result a_text with
       | Some text => text
       | None =>
           match getattr result a_content with
           | Some content => content
           | None => VStr (str result)
           end
       end.

Definition extract_metadata (result : value) : mapping :=
  if is_None result || isinstance_str result then []
  else getattr_metadata result.

(** The unwrapping chains of [SequentialWorkflow.run].  Lines 40-45 (the
    [get_response] branch) ask for [content] first. *)
Definition unwrap_content_first (result : value) : value :=
  match getattr result a_content with
  | Some content => content
  | None =>
      match getattr result a_text with
      | Some text => text
      | None => if negb (isinstance_str result) then VStr (str result)
                else result
      end
  end.

(** Lines 49-54, 58-63, 67-72 (the [run] / [sync_run] branches) and 83-88
    ([research_content]) ask for [text] first. *)
Definition unwrap_text_first (result : value) : value :=
  match getattr result a_text with
  | Some text => text
  | None =>
      match getattr result a_content with
      | Some content => content
      | None => if negb (isinstance_str result) then VStr (str result)
                else result
      end
  end.

(** ** Agents as [SequentialWorkflow.run] sees them

    [run] probes an agent with [hasattr] and [asyncio.iscoroutinefunction]
    and then calls one method.  A method is modelled by the outcome of the
    (awaited) call on a given input. *)

Definition method : Type := string -> outcome value.

Record agent : Type := mkAgent {
  (* [get_response], when the attribute exists: is it a coroutine
     function, and what does calling it give *)
  get_response : option (bool * method);
  (* same for [run] *)
  run_attr : option (bool * method);
  sync_run_attr : option method;
  (* [await agent(current_input)]; raises [TypeError] when the object is
     not callable or the call is not awaitable *)
  call_attr : method
}.

(** Which branch of lines 36-75 an agent takes; the order of the tests is
    the order of the [if] / [elif] chain. *)
Inductive branch : Type :=
| ByGetResponse (m : method)
| ByAsyncRun (m : method)
| BySyncRun (m : method)
| ByRun (m : method)
| ByCall (m : method).

Definition select_branch (a : agent) : branch :=
  match get_response a with
  | Some (true, m) => ByGetResponse m
  | _ =>
      match run_attr a with
      | Some (true, m) => ByAsyncRun m
      | _ =>
          match sync_run_attr a with
          | Some m => BySyncRun m
          | None =>
              match run_attr a with
              | Some (_, m) => ByRun m
              | None => ByCall (call_attr a)
              end
          end
      end
  end.

Definition map_outcome {A B} (f : A -> B) (o : outcome A) : outcome B :=
  match o with
  | Returned a => Returned (f a)
  | Raised e => Raised e
  end.

(** The value bound to [result] at line 77 when the agent is given
    [current_input], or the exception its call raised. *)
Definition stage_result (a : agent) (current_input : string) : outcome value :=
  match select_branch a with
  | ByGetResponse m => map_outcome unwrap_content_first (m current_input)
  | ByAsyncRun m => map_outcome unwrap_text_first (m current_input)
  | BySyncRun m => map_outcome unwrap_text_first (m current_input)
  | ByRun m => map_outcome unwrap_text_first (m current_input)
  | ByCall m => m current_input
  end.

(** ** The prompt built for the blog agent (lines 90-105) *)

Definition nl : string := String (ascii_of_nat 10) EmptyString.

Definition indent : string := "                ".

Definition line (s : string) : string := indent ++ s ++ nl.

(** [research_content] as computed at lines 82-88. *)
Definition research_content (result : value) : value :=
  unwrap_text_first result.

(** The f-string; its placeholder inserts [str(research_content)]. *)
Definition blog_prompt (research_content : value) : string :=
  nl
  ++ line "Transform the following research content into an engaging blog post:"
  ++ line ""
  ++ line "Research Content:"
  ++ line (str research_content)
  ++ line ""
  ++ line "Requirements:"
  ++ line "- Create a compelling headline and introduction"
  ++ line "- Use clear section headers and structure"
  ++ line "- Include practical examples and applications"
  ++ line "- Make complex concepts accessible"
  ++ line "- Ensure proper markdown formatting"
  ++ line "- Conclude with key takeaways and next steps"
  ++ line ""
  ++ line "Create a complete, publication-ready blog post."
  ++ indent.

(** ** [SequentialWorkflow] *)

Record SequentialWorkflow : Type := mkWorkflow { agents : list agent }.

(** [__init__] (lines 16-17) stores the list. *)
Definition SequentialWorkflow_init (agents : list agent)
  : outcome SequentialWorkflow :=
  Returned (mkWorkflow agents).

(** The two variables the loop of [run] updates. *)
Record loop_state : Type := mkLoop {
  results : list value;
  current_input : string
}.

(** Lines 80-105: only the first iteration of a workflow with more than one
    agent replaces [current_input]. *)
Definition next_input (n i : nat) (result : value) (current_input : string)
  : string :=
  if ((i =? 0)%nat && (1 <? n)%nat)%bool
  then blog_prompt (research_content result)
  else current_input.

(** One iteration of the [for] loop, for the agent at index [i] of [n]. *)
Definition loop_body (n i : nat) (a : agent) (st : loop_state) : M loop_state :=
  result <- perform (Call i (current_input st))
                    (stage_result a (current_input st)) ;;
  ret (mkLoop (results st ++ [result])
              (next_input n i result (current_input st))).

Fixpoint loop (n i : nat) (rest : list agent) (st : loop_state) : M loop_state :=
  match rest with
  | [] => ret st
  | a :: rest' =>
      st' <- loop_body n i a st ;;
      loop n (S i) rest' st'
  end.

Definition run (self : SequentialWorkflow) (initial_input : string)
  : M (list value) :=
  st <- loop (length (agents self)) 0 (agents self) (mkLoop [] initial_input) ;;
  ret (results st).

(** [stage_log i ags evs rs]: the calls [evs] are one call per agent of
    [ags], numbered from [i] in order, each of which returned, and [rs]
    are the values they left in [result], in the same order. *)
Inductive stage_log : nat -> list agent -> list event -> list value -> Prop :=
| stage_log_nil (i : nat) : stage_log i [] [] []
| stage_log_cons (i : nat) (a : agent) (rest : list agent) (input : string)
    (r : value) (evs : list event) (rs : list value) :
    stage_result a input = Returned r ->
    stage_log (S i) rest evs rs ->
    stage_log i (a :: rest) (Call i input :: evs) (r :: rs).

(** ** [ResearchToBlogOrchestrator] *)

(** An agent held by the orchestrator: its workflow face, and its [close]
    attribute when it has one (the outcome of [await agent.close()]). *)
Record handle : Type := mkHandle {
  as_agent : agent;
  close_attr : option (outcome unit)
}.

Record ResearchToBlogOrchestrator : Type := mkOrchestrator {
  research_agent : option handle;
  blog_agent : option handle
}.

(** [__init__] (lines 113-115) *)
Definition ResearchToBlogOrchestrator_init : ResearchToBlogOrchestrator :=
  mkOrchestrator None None.

(** [None] put in a workflow: no attribute is found and line 75 calls it. *)
Definition none_agent : agent :=
  mkAgent None None None
    (fun _ => Raised (mkExn "TypeError" "'NoneType' object is not callable")).

Definition workflow_agent (h : option handle) : agent :=
  match h with
  | Some h => as_agent h
  | None => none_agent
  end.

(** Truth value of an attribute that is [None] or an agent object. *)
Definition truthy {A} (o : option A) : bool :=
  match o with Some _ => true | None => false end.

Record section_result : Type := mkSection {
  content : value;
  metadata : mapping
}.

Record workflow_results : Type := mkResults {
  topic : string;
  research : section_result;
  blog_post : section_result;
  workflow_status : string
}.

(** [results[k] if len(results) > k else None] *)
Definition item_or_None (results : list value) (k : nat) : value :=
  if (k <? length results)%nat then nth k results VNone else VNone.

Definition lift {A} (o : outcome A) : M A := fun t => (t, o).

(** The ["content"] / ["metadata"] pair built for each result at lines
    238-245. *)
Definition normalize (result : value) : section_result :=
  mkSection (extract_content result) (extract_metadata result).

Section Orchestrator.

(** [initialize] (lines 117-189) imports the SDKs, reads the environment
    and builds the clients: it is taken as given, by what it leaves in
    [self] or the exception it raises. *)
Variable initialize :
  ResearchToBlogOrchestrator -> outcome ResearchToBlogOrchestrator.

(** Lines 191-250.  The dictionary is returned; the orchestrator as
    [initialize] left it is not threaded further. *)
Definition create_blog_from_topic (self : ResearchToBlogOrchestrator)
    (topic : string) : M workflow_results :=
  self <- (if negb (truthy (research_agent self))
              || negb (truthy (blog_agent self))
           then lift (initialize self) else ret self) ;;
  workflow <- lift (SequentialWorkflow_init
                      [workflow_agent (research_agent self);
                       workflow_agent (blog_agent self)]) ;;
  results <- run workflow topic ;;
  let research_result := item_or_None results 0 in
  let blog_result := item_or_None results 1 in
  ret (mkResults topic
         (normalize research_result)
         (normalize blog_result)
         "completed").

End Orchestrator.

(** [await agent.close()]: [AttributeError] when there is no [close]. *)
Definition await_close (who : role) (h : handle) : M unit :=
  match close_attr h with
  | Some o => perform (Close who) o
  | None =>
      raise (mkExn "AttributeError" "object has no attribute 'close'")
  end.

(** Lines 252-263: each [close] sits in its own [try] with a bare
    [except: pass]. *)
Definition cleanup (self : ResearchToBlogOrchestrator) : M unit :=
  (match research_agent self with
   | Some h => try_except (await_close Research h) (fun _ => ret tt)
   | None => ret tt
   end) ;;;
  (match blog_agent self with
   | Some h => try_except (await_close Blog h) (fun _ => ret tt)
   | None => ret tt
   end).

(** ** [LangChainBlogAgent] *)

(** What the executor returns: a dict read at ["output"] and
    ["intermediate_steps"].  The output, when the key is present, is
    taken to be text, as the executor produces it. *)
Record invoke_result : Type := mkInvokeResult {
  output : option string;
  intermediate_steps : option (list step)
}.

Record AgentExecutor : Type := mkExecutor {
  ainvoke : string -> outcome invoke_result;
  invoke : string -> outcome invoke_result
}.

Record LangChainBlogAgent : Type := mkBlogAgent {
  agent_executor : option AgentExecutor
}.

(** [needle in hay] on strings *)
Fixpoint contains (needle hay : string) : bool :=
  prefix needle hay
  || match hay with
     | EmptyString => false
     | String _ hay' => contains needle hay'
     end.

(** [result["output"]] *)
Definition getitem_output (result : invoke_result) : M string :=
  match output result with
  | Some s => ret s
  | None => raise (mkExn "KeyError" "'output'")
  end.

(** [result.get("intermediate_steps", [])] *)
Definition get_intermediate_steps (result : invoke_result) : list step :=
  match intermediate_steps result with
  | Some steps => steps
  | None => []
  end.

Definition formatting_tool (tool : string) : bool :=
  (tool =? "format_blog_post") || (tool =? "add_seo_elements").

(** Lines 228-237: the first step of a formatting tool whose output is
    longer than 500 characters replaces [output]. *)
Fixpoint first_substantial (steps : list step) (output : string) : string :=
  match steps with
  | [] => output
  | Step (Some tool) tool_output_str :: steps' =>
      if formatting_tool tool
         && (500 <? String.length tool_output_str)%nat
      then tool_output_str
      else first_substantial steps' output
  | _ :: steps' => first_substantial steps' output
  end.

Definition success_metadata (result : invoke_result) : mapping :=
  [("agent_type", MStr "langchain");
   ("intermediate_steps", MSteps (get_intermediate_steps result));
   ("tool_calls", MInt (length (get_intermediate_steps result)))].

Definition error_metadata (e : exn) : mapping :=
  [("error", MStr (exn_str e)); ("agent_type", MStr "langchain")].

Section LangChain.

(** [initialize] (lines 92-200) reads the environment and builds the
    executor, or raises [ValueError]; taken as given. *)
Variable initialize : outcome AgentExecutor.

(** [str] of a [BlogResult] instance (the default object representation,
    which contains its address). *)
Variable BlogResult_str : string.

(** The local class [BlogResult]: [self.text = content],
    [self.metadata = metadata or {}]. *)
Definition BlogResult (content : string) (metadata : option mapping) : value :=
  VObj (Some (VStr content)) None
       (Some (match metadata with Some m => m | None => [] end))
       BlogResult_str.

Definition ensure_executor (self : LangChainBlogAgent) : M AgentExecutor :=
  match agent_executor self with
  | Some executor => ret executor
  | None => lift initialize
  end.

(** The [except Exception as e] handler of lines 254-265 and 301-312. *)
Definition error_result (e : exn) : M value :=
  ret (BlogResult ("Error generating blog post: " ++ exn_str e)
                  (Some (error_metadata e))).

(** Lines 202-265 *)
Definition LangChainBlogAgent_run (self : LangChainBlogAgent)
    (input_text : string) : M value :=
  executor <- ensure_executor self ;;
  try_except
    (result <- perform (Transport input_text) (ainvoke executor input_text) ;;
     output <- getitem_output result ;;
     let output :=
       if contains "The blog has been formatted" output
          || contains "optimized for SEO" output
       then first_substantial (get_intermediate_steps result) output
       else output in
     ret (BlogResult output (Some (success_metadata result))))
    error_result.

(** Lines 267-312 *)
Definition LangChainBlogAgent_sync_run (self : LangChainBlogAgent)
    (input_text : string) : M value :=
  executor <- ensure_executor self ;;
  try_except
    (result <- perform (Transport input_text) (invoke executor input_text) ;;
     output <- getitem_output result ;;
     ret (BlogResult output (Some (success_metadata result))))
    error_result.

End LangChain.

(** [run] and [sync_run] differ in the executor entry point they call and
    in the post-processing of the output; statements about both are
    indexed by the entry point. *)
Inductive entry : Type := Async | Sync.

Definition transport_call (m : entry) (executor : AgentExecutor)
  : string -> outcome invoke_result :=
  match m with Async => ainvoke executor | Sync => invoke executor end.

Definition agent_entry (initialize : outcome AgentExecutor)
    (BlogResult_str : string) (m : entry)
  : LangChainBlogAgent -> string -> M value :=
  match m with
  | Async => LangChainBlogAgent_run initialize BlogResult_str
  | Sync => LangChainBlogAgent_sync_run initialize BlogResult_str
  end.

(** The [text] attribute of a reply object, when it is a string. *)
Definition text_of (v : value) : option string :=
  match getattr v a_text with
  | Some (VStr s) => Some s
  | _ => None
  end.

(** ** Sample agents, used to run the model on concrete inputs *)

Definition not_callable : method :=
  fun _ => Raised (mkExn "TypeError" "object is not callable").

(** An agent with a coroutine [run] that answers [v] whatever it is asked. *)
Definition fixed_reply (v : value) : agent :=
  mkAgent None (Some (true, fun _ => Returned v)) None not_callable.

(** An agent with a coroutine [run] that answers its own input. *)
Definition echo_agent : agent :=
  mkAgent None (Some (true, fun s => Returned (VStr s))) None not_callable.

(** An agent with a coroutine [get_response] that raises [e]. *)
Definition failing_agent (e : exn) : agent :=
  mkAgent (Some (true, fun _ => Raised e)) None None not_callable.

Definition timeout_error : exn := mkExn "ConnectionError" "timeout".

(** An executor whose transport fails on every call. *)
Definition failing_executor : AgentExecutor :=
  mkExecutor (fun _ => Raised timeout_error) (fun _ => Raised timeout_error).

(** A reply object carrying both attributes, with different values. *)
Definition both_fields : value :=
  VObj (Some (VStr "from text")) (Some (VStr "from content")) None "<reply>".

(** ** Vocabulary of the further statements *)

(** Calls numbered from [i] on, one per input. *)
Fixpoint numbered (i : nat) (inputs : list string) : list event :=
  match inputs with
  | [] => []
  | x :: inputs' => Call i x :: numbered (S i) inputs'
  end.

(** The [close] call [cleanup] makes for one attribute of the
    orchestrator: none when the agent is absent or has no [close]. *)
Definition close_call (who : role) (h : option handle) : list event :=
  match h with
  | Some h =>
      match close_attr h with
      | Some _ => [Close who]
      | None => []
      end
  | None => []
  end.

(** The test of lines 229-235 on one step. *)
Definition substantial (s : step) : bool :=
  match s with
  | Step (Some tool) tool_output_str =>
      formatting_tool tool && (500 <? String.length tool_output_str)%nat
  | _ => false
  end.

(** The test of line 225 on the executor's output. *)
Definition marked (output : string) : bool :=
  contains "The blog has been formatted" output
  || contains "optimized for SEO" output.

(** A [LangChainBlogAgent] placed in a workflow: it has a coroutine [run]
    and a [sync_run], no [get_response], and is not callable. *)
Definition langchain_agent (initialize : outcome AgentExecutor)
    (BlogResult_str : string) (self : LangChainBlogAgent) : agent :=
  mkAgent None
    (Some (true,
           fun input =>
             snd (LangChainBlogAgent_run initialize BlogResult_str self
                    input [])))
    (Some (fun input =>
             snd (LangChainBlogAgent_sync_run initialize BlogResult_str self
                    input [])))
    not_callable.


(** The fixed text of the prompt before and after the placeholder. *)
Definition prompt_head : string :=
  nl
  ++ line "Transform the following research content into an engaging blog post:"
  ++ line ""
  ++ line "Research Content:"
  ++ indent.

Definition prompt_tail : string :=
  nl
  ++ line ""
  ++ line "Requirements:"
  ++ line "- Create a compelling headline and introduction"
  ++ line "- Use clear section headers and structure"
  ++ line "- Include practical examples and applications"
  ++ line "- Make complex concepts accessible"
  ++ line "- Ensure proper markdown formatting"
  ++ line "- Conclude with key takeaways and next steps"
  ++ line ""
  ++ line "Create a complete, publication-ready blog post."
  ++ indent.


(** ** The DevUI wrappers of [main.py]

    [create_working_agents] wraps the blog agent and the orchestrator in
    local classes whose [run] is what DevUI calls. *)

(** A query as DevUI hands it over: a [str], or a message object whose
    [content] and [text] attributes, when present, hold text. *)
Inductive query : Type :=
| QStr (s : string)
| QMessage (content text : option string) (str_conv : string).

(** Lines 52-59 and 191-198: [content], else [text], else the string
    itself, else [str(query)]. *)
Definition query_text (q : query) : string :=
  match q with
  | QMessage (Some content) _ _ => content
  | QMessage None (Some text) _ => text
  | QStr s => s
  | QMessage None None str_conv => str_conv
  end.

(** A text given line by line. *)
Definition text_lines (ls : list string) : string := String.concat nl ls.

Module BlogAgentForDevUI.

Record t : Type := mk { blog_agent : LangChainBlogAgent }.

(** Lines 63-71.  The third test, [hasattr(response, 'output')], is never
    met by a [value]: the model has no object with that attribute. *)
Definition response_result (response : value) : value :=
  match getattr response a_text with
  | Some text => text
  | None =>
      match getattr response a_content with
      | Some content => content
      | None => VStr (str response)
      end
  end.

Section Run.

Variable initialize : outcome AgentExecutor.
Variable BlogResult_str : string.

(** Lines 49-77 *)
Definition run (self : t) (q : query) : M value :=
  try_except
    (response <- LangChainBlogAgent_run initialize BlogResult_str
                   (blog_agent self) (query_text q) ;;
     ret (response_result response))
    (fun e => ret (VStr ("Blog generation error: " ++ exn_str e))).

(** Lines 79-86: an asynchronous generator; the model returns the chunks
    it yields to a consumer that iterates to the end. *)
Definition run_stream (self : t) (q : query) : M (list value) :=
  try_except
    (result <- run self q ;;
     ret [result])
    (fun e => ret [VStr ("Error: " ++ exn_str e)]).

End Run.

End BlogAgentForDevUI.

Module OrchestratorAgentForDevUI.

Record t : Type := mk {
  orchestrator : ResearchToBlogOrchestrator;
  _initialized : bool
}.

(** Lines 176-180 *)
Definition init : t := mk ResearchToBlogOrchestrator_init false.

Section Run.

Variable initialize :
  ResearchToBlogOrchestrator -> outcome ResearchToBlogOrchestrator.

(** The two emoji of the headings at lines 213 and 218 (U+1F4CA and
    U+1F4DD); they are outside the 8-bit alphabet of [string]. *)
Variable bar_chart memo : string.

(** Lines 182-186 *)
Definition _ensure_initialized (self : t) : M t :=
  if negb (_initialized self)
  then o <- lift (initialize (orchestrator self)) ;;
       ret (mk o true)
  else ret self.

(** Lines 211-222 *)
Definition combined_result (research_content blog_content : value) : string :=
  text_lines
    ["# Research-to-Blog Workflow Results";
     "";
     ("## " ++ bar_chart ++ " Research Phase")%string;
     str research_content;
     "";
     "---";
     "";
     ("## " ++ memo ++ " Blog Post Phase  ")%string;
     str blog_content;
     "";
     "---";
     "*Workflow completed successfully via Sequential Research-to-Blog Orchestrator*"].

(** Lines 229-240 *)
Definition error_page (e : exn) : string :=
  text_lines
    ["# Orchestrator Workflow Error";
     "";
     "Unable to complete the research-to-blog workflow.";
     "";
     ("**Error Details:** " ++ exn_str e)%string;
     "";
     "**Troubleshooting:**";
     "1. Ensure both research and blog agents are properly configured";
     "2. Check Azure AI and LangChain authentication";
     "3. Verify all required environment variables are set";
     "";
     "The orchestrator combines research and blog creation in a sequential workflow."].

(** Lines 188-240.  The text is returned; the wrapper as
    [_ensure_initialized] left it is not threaded further. *)
Definition run (self : t) (q : query) : M string :=
  try_except
    (self <- _ensure_initialized self ;;
     workflow_results <- create_blog_from_topic initialize (orchestrator self)
                           (query_text q) ;;
     ret (combined_result (content (research workflow_results))
                          (content (blog_post workflow_results))))
    (fun e => ret (error_page e)).

(** Lines 242-249 *)
Definition run_stream (self : t) (q : query) : M (list string) :=
  try_except
    (result <- run self q ;;
     ret [result])
    (fun e => ret [("Error: " ++ exn_str e)%string]).

End Run.

End OrchestratorAgentForDevUI.


(** ** The formatting tools of [langchain_blog_agent.py] (lines 16-81)

    The functions under the [@tool] decorators.  A character of a
    [string] stands for a code point below 256; the string methods are
    those of [str] on such text. *)

Definition newline : ascii := ascii_of_nat 10.

(** [s.split('\n')] *)
Fixpoint split_lines (s : string) : list string :=
  match s with
  | EmptyString => [EmptyString]
  | String c s' =>
      if Ascii.eqb c newline then EmptyString :: split_lines s'
      else match split_lines s' with
           | l :: ls => String c l :: ls
           | [] => [String c EmptyString]
           end
  end.

(** ['\n'.join(ls)] *)
Definition join_lines (ls : list string) : string := String.concat nl ls.

(** [c.isspace()]: code points 9-13, 28-32, 133 and 160. *)
Definition isspace (c : ascii) : bool :=
  let n := nat_of_ascii c in
  ((9 <=? n) && (n <=? 13) || (28 <=? n) && (n <=? 32)
   || (n =? 133) || (n =? 160))%nat.

Fixpoint lstrip (s : string) : string :=
  match s with
  | EmptyString => EmptyString
  | String c s' => if isspace c then lstrip s' else s
  end.

Fixpoint rstrip (s : string) : string :=
  match s with
  | EmptyString => EmptyString
  | String c s' =>
      match rstrip s' with
      | EmptyString => if isspace c then EmptyString else String c EmptyString
      | r => String c r
      end
  end.

(** [s.strip()] *)
Definition strip (s : string) : string := rstrip (lstrip s).

(** [s.startswith(p)] *)
Definition startswith (s p : string) : bool := prefix p s.

(** [s.endswith(p)] *)
Fixpoint endswith (s p : string) : bool :=
  (s =? p)
  || match s with
     | EmptyString => false
     | String _ s' => endswith s' p
     end.

(** [s[2:-2]] *)
Definition slice_2_m2 (s : string) : string :=
  substring 2 (String.length s - 4) s.

(** [c.lower()]: A-Z and the capital letters 192-214, 216-222 move up by
    32. *)
Definition lower_char (c : ascii) : ascii :=
  let n := nat_of_ascii c in
  if ((65 <=? n) && (n <=? 90) || (192 <=? n) && (n <=? 214)
      || (216 <=? n) && (n <=? 222))%nat
  then ascii_of_nat (n + 32)
  else c.

(** [s.lower()] *)
Fixpoint lower (s : string) : string :=
  match s with
  | EmptyString => EmptyString
  | String c s' => String (lower_char c) (lower s')
  end.

(** [s.replace(old, new)] for a non-empty [old]: occurrences are taken
    from the left and do not overlap; [skip] characters of a match are
    still to be passed over. *)
Fixpoint replace_from (old new : string) (skip : nat) (s : string) : string :=
  match s with
  | EmptyString => EmptyString
  | String c s' =>
      match skip with
      | S k => replace_from old new k s'
      | 0 =>
          if prefix old s
          then new ++ replace_from old new (String.length old - 1) s'
          else String c (replace_from old new 0 s')
      end
  end.

(** [s.replace("", new)]: [new] before every character and at the end. *)
Fixpoint insert_everywhere (new s : string) : string :=
  match s with
  | EmptyString => new
  | String c s' => new ++ String c (insert_everywhere new s')
  end.

(** [s.replace(old, new)] *)
Definition replace (s old new : string) : string :=
  match old with
  | EmptyString => insert_everywhere new s
  | _ => replace_from old new 0 s
  end.

(** Truth value of an optional string argument: [None] and [""] are
    false. *)
Definition nonempty (s : string) : bool := negb (s =? "").

(** Lines 36-47: what one line of the content adds to
    [formatted_lines]. *)
Definition format_line (formatted_lines : list string) (line : string)
  : list string :=
  let line := strip line in
  if nonempty line
  then
    (if startswith line "**" && endswith line "**"
     then formatted_lines ++ [("## " ++ slice_2_m2 line)%string]
     else if startswith line "- "
          then formatted_lines ++ [line]
          else formatted_lines ++ [line])
    ++ [EmptyString]
  else formatted_lines.

(** Lines 17-49 *)
Definition format_blog_post (content : string) (title : option string)
  : string :=
  let lines := split_lines content in
  let formatted_lines :=
    match title with
    | Some title =>
        if nonempty title then [("# " ++ title)%string; EmptyString] else []
    | None => []
    end in
  join_lines (fold_left format_line lines formatted_lines).

(** Lines 74-76: one keyword applied to one line. *)
Definition emphasise (line keyword : string) : string :=
  if contains (lower keyword) (lower line) && negb (startswith line "#")
  then replace line keyword ("**" ++ keyword ++ "**")
  else line.

(** Lines 71-79: what one line of the content adds to
    [enhanced_lines]. *)
Definition enhance_line (keywords : list string) (enhanced_lines : list string)
    (line : string) : list string :=
  if nonempty (strip line)
  then enhanced_lines ++ [fold_left emphasise keywords line]
  else enhanced_lines ++ [line].

(** Lines 53-81 *)
Definition add_seo_elements (content : string)
    (keywords : option (list string)) : string :=
  let keywords :=
    match keywords with
    | Some (k :: ks) => k :: ks
    | _ => []
    end in
  let lines := split_lines content in
  join_lines (fold_left (enhance_line keywords) lines []).


(** What the loop of [add_seo_elements] does to one line (lines 72-79). *)
Definition enhanced (keywords : list string) (line : string) : string :=
  if nonempty (strip line) then fold_left emphasise keywords line else line.

(** What the loop of [format_blog_post] emits for one line (lines 37-47). *)
Definition formatted (line : string) : list string :=
  format_line [] line.

(** Does the text contain a newline character? *)
Fixpoint has_newline (s : string) : bool :=
  match s with
  | EmptyString => false
  | String c s' => Ascii.eqb c newline || has_newline s'
  end.


(** ** [demo_orchestration] (lines 266-296)

    The demo creates an orchestrator, runs [create_blog_from_topic] on a
    fixed topic inside [try], prints, and closes the agents in [finally].
    What [initialize] leaves in the orchestrator matters here, also when
    it raises: it is taken as the orchestrator it leaves and its
    outcome. *)

(** Line 285 (and line 99 of [test_langchain_integration.py]):
    [content[:500] + "..." if len(content) > 500 else content] *)
Definition preview (content : string) : string :=
  if (500 <? String.length content)%nat
  then (substring 0 500 content ++ "...")%string
  else content.

Definition demo_topic : string := "Edge Computing in IoT Applications".

Section Demo.

Variable initialize_st :
  ResearchToBlogOrchestrator -> ResearchToBlogOrchestrator * outcome unit.

(** [initialize_st] seen as the [initialize] of [create_blog_from_topic]. *)
Definition initialize_of (self : ResearchToBlogOrchestrator)
  : outcome ResearchToBlogOrchestrator :=
  map_outcome (fun _ => fst (initialize_st self)) (snd (initialize_st self)).

(** [create_blog_from_topic] together with the orchestrator it leaves. *)
Definition create_blog_from_topic_st (self : ResearchToBlogOrchestrator)
    (topic : string) (t : trace)
  : ResearchToBlogOrchestrator * (trace * outcome workflow_results) :=
  let self' :=
    if negb (truthy (research_agent self)) || negb (truthy (blog_agent self))
    then fst (initialize_st self) else self in
  (self', create_blog_from_topic initialize_of self topic t).

(** Lines 272-296.  The body of [try] and the [except Exception] handler
    only print after the call; [finally] runs in both cases. *)
Definition demo_orchestration : M unit :=
  fun t =>
    let orchestrator := ResearchToBlogOrchestrator_init in
    let '(orchestrator, (t, _)) :=
      create_blog_from_topic_st orchestrator demo_topic t in
    cleanup orchestrator t.

End Demo.

(** ** [AgentConfig] ([utils.py], lines 10-97)

    The settings are what [os.getenv] returned: [None] or a string. *)

Module AgentConfig.

Record t : Type := mk {
  project_endpoint : option string;
  model_deployment_name : option string;
  agent_id : option string;
  openai_endpoint : option string;
  openai_deployment_name : option string;
  openai_api_version : option string;
  openai_api_key : option string
}.

(** Truth value of a setting: [None] and [""] are false. *)
Definition given (v : option string) : bool :=
  match v with
  | Some s => nonempty s
  | None => false
  end.

Definition validate_ai_foundry (self : t) : bool :=
  given (project_endpoint self) && given (model_deployment_name self).

Definition validate_openai (self : t) : bool :=
  given (openai_endpoint self) && given (openai_deployment_name self).

Definition validate (self : t) : bool := validate_ai_foundry self.

Definition validate_all (self : t) : bool :=
  validate_ai_foundry self && validate_openai self.

Definition get_missing_ai_foundry_config (self : t) : list string :=
  let missing := [] in
  let missing :=
    if negb (given (project_endpoint self))
    then missing ++ ["AZURE_AI_PROJECT_ENDPOINT"] else missing in
  let missing :=
    if negb (given (model_deployment_name self))
    then missing ++ ["AZURE_AI_MODEL_DEPLOYMENT_NAME"] else missing in
  missing.

Definition get_missing_openai_config (self : t) : list string :=
  let missing := [] in
  let missing :=
    if negb (given (openai_endpoint self))
    then missing ++ ["AZURE_OPENAI_ENDPOINT"] else missing in
  let missing :=
    if negb (given (openai_deployment_name self))
    then missing ++ ["AZURE_OPENAI_CHAT_DEPLOYMENT_NAME"] else missing in
  missing.

Definition get_missing_config (self : t) : list string :=
  get_missing_ai_foundry_config self.

End AgentConfig.


(** ** Vocabulary of the statement about the replies of [run] *)

(** The method an agent's branch calls, and what that call answers before
    any unwrapping. *)
Definition branch_method (b : branch) : method :=
  match b with
  | ByGetResponse m => m
  | ByAsyncRun m => m
  | BySyncRun m => m
  | ByRun m => m
  | ByCall m => m
  end.

Definition raw_answer (a : agent) (input : string) : outcome value :=
  branch_method (select_branch a) input.

(** How a branch treats the answer: lines 40-45 look for [content] then
    [text], lines 49-72 for [text] then [content], line 75 keeps the
    answer as it is. *)
Inductive treatment : Type := ContentFirst | TextFirst | Untouched.

Definition treatment_of (a : agent) : treatment :=
  match select_branch a with
  | ByGetResponse _ => ContentFirst
  | ByCall _ => Untouched
  | _ => TextFirst
  end.

(** The reply stored for a raw answer, shape by shape: a string stays, an
    object gives the value of its first present attribute (whatever that
    value is), and a value without either attribute gives its [str]. *)
Definition stored_reply (k : treatment) (raw : value) : value :=
  match k, raw with
  | Untouched, _ => raw
  | _, VStr s => VStr s
  | _, VNone => VStr "None"
  | ContentFirst, VObj _ (Some content) _ _ => content
  | ContentFirst, VObj (Some text) None _ _ => text
  | TextFirst, VObj (Some text) _ _ _ => text
  | TextFirst, VObj None (Some content) _ _ => content
  | _, VObj None None _ str_conv => VStr str_conv
  end.

(** [reply_log i ags evs rs]: one call per agent of [ags], numbered from
    [i] in order, each of which returned, and [rs] are the stored replies
    of their raw answers, in the same order. *)
Inductive reply_log : nat -> list agent -> list event -> list value -> Prop :=
| reply_log_nil (i : nat) : reply_log i [] [] []
| reply_log_cons (i : nat) (a : agent) (rest : list agent) (input : string)
    (raw : value) (evs : list event) (rs : list value) :
    raw_answer a input = Returned raw ->
    reply_log (S i) rest evs rs ->
    reply_log i (a :: rest) (Call i input :: evs)
      (stored_reply (treatment_of a) raw :: rs).

(** An agent without [get_response], [run] or [sync_run] that answers [v]
    when called. *)
Definition called_directly (v : value) : agent :=
  mkAgent None None None (fun _ => Returned v).

(** A reply object that carries its text in a [text] attribute. *)
Definition text_only_object : value :=
  VObj (Some (VStr "the text")) None None "<reply>".

(** * Properties *)

(** ** The normaliser *)

Lemma extract_content_str (s : string) : extract_content (VStr s) = VStr s.
Proof. reflexivity. Qed.

Lemma extract_metadata_str (s : string) : extract_metadata (VStr s) = [].
Proof. reflexivity. Qed.

Lemma unwrap_text_first_str (s : string) : unwrap_text_first (VStr s) = VStr s.
Proof. reflexivity. Qed.

Lemma unwrap_content_first_str (s : string) :
  unwrap_content_first (VStr s) = VStr s.
Proof. reflexivity. Qed.

(** ** The loop of [run] *)

Lemma loop_cons (n i : nat) (a : agent) (rest : list agent) (st : loop_state)
    (t : trace) :
  loop n i (a :: rest) st t =
  match stage_result a (current_input st) with
  | Returned r =>
      loop n (S i) rest
        (mkLoop (results st ++ [r]) (next_input n i r (current_input st)))
        (t ++ [Call i (current_input st)])
  | Raised e => (t ++ [Call i (current_input st)], Raised e)
  end.
Proof.
  cbn [loop]. unfold bind, loop_body, bind, perform, ret.
  destruct (stage_result a (current_input st)); reflexivity.
Qed.

(** The loop only appends to the trace it is started on. *)
Lemma loop_frame (n : nat) (rest : list agent) :
  forall (i : nat) (st : loop_state) (t : trace),
    loop n i rest st t =
    (t ++ fst (loop n i rest st []), snd (loop n i rest st [])).
Proof.
  induction rest as [|a rest IH]; intros i st t.
  - cbn. now rewrite app_nil_r.
  - rewrite !loop_cons.
    destruct (stage_result a (current_input st)) as [r|e]; cbn [fst snd app].
    + rewrite (IH (S i) _ (t ++ [Call i (current_input st)])).
      rewrite (IH (S i) _ [Call i (current_input st)]).
      cbn [fst snd]. now rewrite <- app_assoc.
    + reflexivity.
Qed.

Lemma run_frame (w : SequentialWorkflow) (initial_input : string) (t : trace) :
  run w initial_input t =
  (t ++ fst (run w initial_input []), snd (run w initial_input [])).
Proof.
  unfold run, bind. rewrite loop_frame.
  destruct (loop (length (agents w)) 0 (agents w) (mkLoop [] initial_input) [])
    as [c [st|e]]; reflexivity.
Qed.

Lemma run_fst (w : SequentialWorkflow) (initial_input : string) :
  fst (run w initial_input []) =
  fst (loop (length (agents w)) 0 (agents w) (mkLoop [] initial_input) []).
Proof.
  unfold run, bind.
  destruct (loop (length (agents w)) 0 (agents w) (mkLoop [] initial_input) [])
    as [c [st|e]]; reflexivity.
Qed.

Lemma run_snd (w : SequentialWorkflow) (initial_input : string) :
  snd (run w initial_input []) =
  map_outcome results
    (snd (loop (length (agents w)) 0 (agents w) (mkLoop [] initial_input) [])).
Proof.
  unfold run, bind.
  destruct (loop (length (agents w)) 0 (agents w) (mkLoop [] initial_input) [])
    as [c [st|e]]; reflexivity.
Qed.

(** What a finished loop looks like: either every agent was called once and
    returned, or the agents before the failing one were, the failing one
    was called last, and its exception is the loop's. *)
Lemma loop_inv (n : nat) (rest : list agent) :
  forall (i : nat) (st : loop_state),
    match snd (loop n i rest st []) with
    | Returned st' =>
        exists rs,
          results st' = results st ++ rs
          /\ stage_log i rest (fst (loop n i rest st [])) rs
    | Raised e =>
        exists pre a post cpre rs input,
          rest = pre ++ a :: post
          /\ fst (loop n i rest st []) = cpre ++ [Call (i + length pre) input]
          /\ stage_log i pre cpre rs
          /\ stage_result a input = Raised e
    end.
Proof.
  induction rest as [|a rest IH]; intros i st.
  - cbn. exists []. split; [now rewrite app_nil_r | constructor].
  - rewrite loop_cons.
    destruct (stage_result a (current_input st)) as [r|e] eqn:Ha.
    + rewrite loop_frame. cbn [fst snd app].
      specialize (IH (S i)
        (mkLoop (results st ++ [r]) (next_input n i r (current_input st)))).
      destruct (snd (loop n (S i) rest _ [])) as [st'|e].
      * destruct IH as (rs & Hres & Hlog).
        exists (r :: rs). split.
        -- rewrite Hres. cbn [results]. now rewrite <- app_assoc.
        -- now constructor.
      * destruct IH as (pre & a' & post & cpre & rs & input
                        & Hrest & Hc & Hlog & Hraise).
        exists (a :: pre), a', post,
               (Call i (current_input st) :: cpre), (r :: rs), input.
        repeat split.
        -- now rewrite Hrest.
        -- rewrite Hc. cbn [length app]. now rewrite Nat.add_succ_r.
        -- now constructor.
        -- exact Hraise.
    + cbn [fst snd app].
      exists [], a, rest, [], [], (current_input st).
      repeat split; [now rewrite Nat.add_0_r | constructor | exact Ha].
Qed.

Lemma stage_log_length (i : nat) (ags : list agent) (evs : list event)
    (rs : list value) :
  stage_log i ags evs rs ->
  length evs = length ags /\ length rs = length ags.
Proof.
  induction 1 as [|i a rest input r evs rs _ _ [IHe IHr]]; cbn; auto.
Qed.

(** A logged call belongs to the agent at that index, and returned. *)
Lemma stage_log_lookup (i : nat) (ags : list agent) (evs : list event)
    (rs : list value) :
  stage_log i ags evs rs ->
  forall j x, In (Call j x) evs ->
    i <= j /\ exists a r,
      nth_error ags (j - i) = Some a /\ stage_result a x = Returned r.
Proof.
  induction 1 as [|i a rest input r evs rs Ha _ IH]; intros j x Hin.
  - destruct Hin.
  - destruct Hin as [Heq|Hin].
    + inversion Heq; subst. split; [lia|].
      exists a, r. now rewrite Nat.sub_diag.
    + destruct (IH j x Hin) as (Hle & a' & r' & Hnth & Hret).
      split; [lia|]. exists a', r'. split; [|exact Hret].
      replace (j - i) with (S (j - S i)) by lia. exact Hnth.
Qed.

Lemma run_inv (w : SequentialWorkflow) (initial_input : string) :
  match snd (run w initial_input []) with
  | Returned rs => stage_log 0 (agents w) (fst (run w initial_input [])) rs
  | Raised e =>
      exists pre a post cpre rs input,
        agents w = pre ++ a :: post
        /\ fst (run w initial_input []) = cpre ++ [Call (length pre) input]
        /\ stage_log 0 pre cpre rs
        /\ stage_result a input = Raised e
  end.
Proof.
  rewrite run_fst, run_snd.
  pose proof (loop_inv (length (agents w)) (agents w) 0
                (mkLoop [] initial_input)) as H.
  destruct (snd (loop _ 0 (agents w) _ [])) as [st'|e]; cbn [map_outcome].
  - destruct H as (rs & Hres & Hlog). cbn in Hres. now rewrite Hres.
  - exact H.
Qed.

(** A call that raised is the last call of the run, and its exception is
    what [run] raises. *)
Lemma run_raised_at (ags : list agent) (initial_input : string) (k : nat)
    (a : agent) (input : string) (e : exn) :
  nth_error ags k = Some a ->
  In (Call k input) (fst (run (mkWorkflow ags) initial_input [])) ->
  stage_result a input = Raised e ->
  exists pre post cpre rs,
    ags = pre ++ a :: post
    /\ k = length pre
    /\ fst (run (mkWorkflow ags) initial_input []) = cpre ++ [Call k input]
    /\ stage_log 0 pre cpre rs
    /\ snd (run (mkWorkflow ags) initial_input []) = Raised e.
Proof.
  intros Hnth Hin Hraise.
  pose proof (run_inv (mkWorkflow ags) initial_input) as H.
  cbn [agents] in H.
  destruct (snd (run (mkWorkflow ags) initial_input [])) as [rs|e'].
  - destruct (stage_log_lookup _ _ _ _ H k input Hin) as (_ & a' & r & Ha' & Hr).
    rewrite Nat.sub_0_r in Ha'. congruence.
  - destruct H as (pre & a' & post & cpre & rs & input' & Hags & Hc & Hlog & He').
    rewrite Hc in Hin. apply in_app_or in Hin. destruct Hin as [Hin|Hin].
    + destruct (stage_log_lookup _ _ _ _ Hlog k input Hin)
        as (_ & a'' & r & Ha'' & Hr).
      rewrite Nat.sub_0_r in Ha''.
      assert (Hk : k < length pre)
        by (apply nth_error_Some; congruence).
      rewrite Hags, nth_error_app1 in Hnth by exact Hk. congruence.
    + destruct Hin as [Heq|[]]. inversion Heq; subst k input'.
      rewrite Hags, nth_error_app2, Nat.sub_diag in Hnth by lia.
      cbn in Hnth. inversion Hnth; subst a'.
      exists pre, post, cpre, rs. repeat split; auto. congruence.
Qed.

(** From the second iteration on, the loop never changes [current_input]. *)
Lemma loop_later_calls (n : nat) (rest : list agent) :
  forall (i : nat) (st : loop_state),
    0 < i ->
    forall j x, In (Call j x) (fst (loop n i rest st [])) ->
      i <= j /\ x = current_input st.
Proof.
  induction rest as [|a rest IH]; intros i st Hi j x Hin.
  - destruct Hin.
  - rewrite loop_cons in Hin.
    destruct (stage_result a (current_input st)) as [r|e].
    + rewrite loop_frame in Hin. cbn [fst app] in Hin.
      destruct Hin as [Heq|Hin].
      * inversion Heq; subst. split; [lia | reflexivity].
      * apply IH in Hin; [|lia]. destruct Hin as [Hle Hx].
        split; [lia|]. rewrite Hx. cbn [current_input].
        unfold next_input. destruct i; [lia | reflexivity].
    + destruct Hin as [Heq|[]]. inversion Heq; subst.
      split; [lia | reflexivity].
Qed.

(** The inputs of a run: the first agent gets [initial_input]; every later
    agent gets the prompt built from the FIRST agent's result. *)
Lemma run_inputs (a0 : agent) (rest : list agent) (initial_input : string)
    (r0 : value) :
  stage_result a0 initial_input = Returned r0 ->
  forall j x,
    In (Call j x) (fst (run (mkWorkflow (a0 :: rest)) initial_input [])) ->
    (j = 0 /\ x = initial_input)
    \/ (1 <= j /\ x = blog_prompt (research_content r0)).
Proof.
  intros H0 j x Hin. rewrite run_fst in Hin. cbn [agents] in Hin.
  rewrite loop_cons in Hin. cbn [current_input results] in Hin.
  rewrite H0, loop_frame in Hin. cbn [fst app] in Hin.
  destruct Hin as [Heq|Hin].
  - inversion Heq; subst. now left.
  - right. destruct rest as [|a1 rest]; [destruct Hin|].
    apply loop_later_calls in Hin; [|lia]. exact Hin.
Qed.

Lemma second_call (a0 a1 : agent) (rest : list agent) (initial_input : string)
    (r0 : value) :
  stage_result a0 initial_input = Returned r0 ->
  nth_error (fst (run (mkWorkflow (a0 :: a1 :: rest)) initial_input [])) 1
  = Some (Call 1 (blog_prompt (research_content r0))).
Proof.
  intros H0. rewrite run_fst. cbn [agents].
  rewrite loop_cons. cbn [current_input results]. rewrite H0.
  rewrite loop_cons. cbn [current_input results].
  destruct (stage_result a1 _) as [r1|e].
  - rewrite loop_frame. reflexivity.
  - reflexivity.
Qed.

Lemma blog_prompt_text (v v' : value) :
  str v = str v' -> blog_prompt v = blog_prompt v'.
Proof. intros H. unfold blog_prompt. now rewrite H. Qed.

(** ** [create_blog_from_topic] *)

Lemma create_blog_initialised
    (initialize : ResearchToBlogOrchestrator -> outcome ResearchToBlogOrchestrator)
    (h1 h2 : handle) (topic : string) (t : trace) :
  create_blog_from_topic initialize (mkOrchestrator (Some h1) (Some h2)) topic t
  = (t ++ fst (run (mkWorkflow [as_agent h1; as_agent h2]) topic []),
     map_outcome
       (fun rs => mkResults topic (normalize (item_or_None rs 0))
                    (normalize (item_or_None rs 1)) "completed")
       (snd (run (mkWorkflow [as_agent h1; as_agent h2]) topic []))).
Proof.
  unfold create_blog_from_topic, bind, lift, ret, SequentialWorkflow_init.
  cbn [research_agent blog_agent truthy negb orb workflow_agent].
  rewrite run_frame.
  destruct (snd (run _ topic [])); reflexivity.
Qed.

Lemma create_blog_status
    (initialize : ResearchToBlogOrchestrator -> outcome ResearchToBlogOrchestrator)
    (self : ResearchToBlogOrchestrator) (topic : string) (t t' : trace)
    (d : workflow_results) :
  create_blog_from_topic initialize self topic t = (t', Returned d) ->
  workflow_status d = "completed".
Proof.
  unfold create_blog_from_topic, bind, lift, ret, SequentialWorkflow_init.
  destruct (negb (truthy (research_agent self))
            || negb (truthy (blog_agent self))).
  - destruct (initialize self) as [self'|e]; [|discriminate].
    destruct (run _ topic t) as [c [rs|e]]; intros H; inversion H; reflexivity.
  - destruct (run _ topic t) as [c [rs|e]]; intros H; inversion H; reflexivity.
Qed.

Lemma prefix_app (s t : string) : prefix s (s ++ t) = true.
Proof.
  induction s as [|c s IH]; cbn.
  - now destruct t.
  - destruct (ascii_dec c c) as [_|Hne]; [exact IH | now destruct Hne].
Qed.

(** * The claims *)

(** C1, counterexample.  A two-stage workflow whose first agent raises:
    [run] hands the exception to its caller and returns no reply list, so
    there is no failed reply and no status to read. *)
Lemma C1_exception_escapes_run :
  run (mkWorkflow [failing_agent timeout_error; echo_agent]) "topic" []
  = ([Call 0 "topic"], Raised timeout_error)
  /\ ~ (exists rs,
          snd (run (mkWorkflow [failing_agent timeout_error; echo_agent])
                   "topic" [])
          = Returned rs).
Proof.
  split; [reflexivity|]. intros [rs H]. discriminate H.
Qed.

(** C1, as the code has it.  When the call made to stage [k] raises [e],
    [run] does not catch it: [run] itself raises [e] and returns no reply
    list; no stage after [k] is called; [create_blog_from_topic] on these
    two agents raises [e] as well; and whenever [create_blog_from_topic]
    does return, its status is "completed" (no other status exists). *)
Theorem C1_stage_exception_propagates (ags : list agent)
    (initial_input : string) (k : nat) (a : agent) (input : string) (e : exn) :
  nth_error ags k = Some a ->
  In (Call k input) (fst (run (mkWorkflow ags) initial_input [])) ->
  stage_result a input = Raised e ->
  snd (run (mkWorkflow ags) initial_input []) = Raised e
  /\ (forall j x,
        In (Call j x) (fst (run (mkWorkflow ags) initial_input [])) -> j <= k)
  /\ (forall initialize h1 h2 t,
        ags = [as_agent h1; as_agent h2] ->
        snd (create_blog_from_topic initialize
               (mkOrchestrator (Some h1) (Some h2)) initial_input t)
        = Raised e)
  /\ (forall initialize self tp t t' d,
        create_blog_from_topic initialize self tp t = (t', Returned d) ->
        workflow_status d = "completed").
Proof.
  intros Hnth Hin Hraise.
  destruct (run_raised_at ags initial_input k a input e Hnth Hin Hraise)
    as (pre & post & cpre & rs & Hags & Hk & Hc & Hlog & Hsnd).
  split; [exact Hsnd|]. split; [|split].
  - intros j x Hj. rewrite Hc in Hj. apply in_app_or in Hj.
    destruct Hj as [Hj|[Heq|[]]].
    + destruct (stage_log_lookup _ _ _ _ Hlog j x Hj) as (_ & a' & r & Ha' & _).
      rewrite Nat.sub_0_r in Ha'.
      assert (j < length pre) by (apply nth_error_Some; congruence). lia.
    + inversion Heq; lia.
  - intros initialize h1 h2 t Heq.
    rewrite create_blog_initialised. cbn [snd].
    rewrite <- Heq, Hsnd. reflexivity.
  - intros initialize self tp t t' d. apply create_blog_status.
Qed.

(** The first of two stages raises. *)
Lemma C1_stage_exception_propagates_witness :
  snd (run (mkWorkflow [failing_agent timeout_error; echo_agent]) "topic" [])
  = Raised timeout_error.
Proof.
  refine (proj1 (C1_stage_exception_propagates
                   [failing_agent timeout_error; echo_agent] "topic" 0
                   (failing_agent timeout_error) "topic" timeout_error
                   _ _ _)).
  - reflexivity.
  - simpl. left. reflexivity.
  - reflexivity.
Defined.

(** C2, evaluated on a three-stage list.  The agents answer "R0", "R1" and
    their own input.  Stage 0 is given the topic and stage 1 the prompt
    built from "R0", as the claim says; stage 2 is given the very same
    prompt built from stage 0's "R0", not one built from stage 1's "R1". *)
Theorem C2_third_stage_reuses_first_result :
  run (mkWorkflow [fixed_reply (VStr "R0"); fixed_reply (VStr "R1"); echo_agent])
      "T" []
  = ([Call 0 "T";
      Call 1 (blog_prompt (VStr "R0"));
      Call 2 (blog_prompt (VStr "R0"))],
     Returned [VStr "R0"; VStr "R1"; VStr (blog_prompt (VStr "R0"))])
  /\ blog_prompt (VStr "R0") <> blog_prompt (VStr "R1").
Proof.
  split; [reflexivity|]. apply String.eqb_neq. vm_compute. reflexivity.
Qed.

(** C3, counterexample.  On an object with [text = "from text"] and
    [content = "from content"], [extract_content] answers the text-like
    value, not the content-like one. *)
Lemma C3_extract_content_prefers_text :
  extract_content both_fields = VStr "from text"
  /\ extract_content both_fields <> VStr "from content".
Proof. split; [reflexivity | discriminate]. Qed.

(** C3, as the code has it.  On an object exposing both fields,
    [extract_content] and the [run] / [sync_run] branches of
    [SequentialWorkflow.run] select the text-like value; only the
    [get_response] branch selects the content-like value.  On an object
    exposing only a text-like field all of them select that field. *)
Theorem C3_field_priority (text content : value) (metadata : option mapping)
    (str_conv : string) :
  extract_content (VObj (Some text) (Some content) metadata str_conv) = text
  /\ unwrap_text_first (VObj (Some text) (Some content) metadata str_conv)
     = text
  /\ unwrap_content_first (VObj (Some text) (Some content) metadata str_conv)
     = content
  /\ extract_content (VObj (Some text) None metadata str_conv) = text
  /\ unwrap_text_first (VObj (Some text) None metadata str_conv) = text
  /\ unwrap_content_first (VObj (Some text) None metadata str_conv) = text.
Proof. repeat split. Qed.

(** C4, counterexample.  Constructing a workflow from the empty list
    returns a workflow; nothing is raised. *)
Lemma C4_empty_list_is_accepted :
  SequentialWorkflow_init [] = Returned (mkWorkflow [])
  /\ ~ (exists e, SequentialWorkflow_init [] = Raised e).
Proof. split; [reflexivity|]. intros [e H]. discriminate H. Qed.

(** C4, as the code has it.  The constructor accepts every agent list,
    the empty one included, and stores it unchanged; running the empty
    workflow calls no agent and returns the empty reply list. *)
Theorem C4_no_validation_at_construction (ags : list agent)
    (initial_input : string) (t : trace) :
  SequentialWorkflow_init ags = Returned (mkWorkflow ags)
  /\ run (mkWorkflow []) initial_input t = (t, Returned []).
Proof. split; reflexivity. Qed.

(** C5, counterexample.  The transport fails with "timeout": the adapter
    does return a reply object, but its text is
    "Error generating blog post: timeout", which does not start with
    "Error: ". *)
Lemma C5_marker_is_not_Error_colon :
  LangChainBlogAgent_run (Raised timeout_error) "<BlogResult>"
    (mkBlogAgent (Some failing_executor)) "topic" []
  = ([Transport "topic"],
     Returned
       (VObj (Some (VStr "Error generating blog post: timeout")) None
             (Some [("error", MStr "timeout"); ("agent_type", MStr "langchain")])
             "<BlogResult>"))
  /\ prefix "Error: " "Error generating blog post: timeout" = false.
Proof. split; reflexivity. Qed.

(** C5, as the code has it.  For [run] and for [sync_run]: when the agent
    has (or initialises) an executor and the executor's call raises [e],
    the adapter returns a [BlogResult] instead of raising; its text is
    "Error generating blog post: " followed by [str(e)], so it starts with
    that marker, and its metadata records the error. *)
Theorem C5_transport_failure_becomes_reply (initialize : outcome AgentExecutor)
    (BlogResult_str : string) (m : entry) (self : LangChainBlogAgent)
    (executor : AgentExecutor) (input_text : string) (e : exn) (t : trace) :
  ensure_executor initialize self t = (t, Returned executor) ->
  transport_call m executor input_text = Raised e ->
  agent_entry initialize BlogResult_str m self input_text t
  = (t ++ [Transport input_text],
     Returned (BlogResult BlogResult_str
                 ("Error generating blog post: " ++ exn_str e)
                 (Some (error_metadata e))))
  /\ text_of (BlogResult BlogResult_str
                ("Error generating blog post: " ++ exn_str e)
                (Some (error_metadata e)))
     = Some ("Error generating blog post: " ++ exn_str e)%string
  /\ prefix "Error generating blog post: "
            ("Error generating blog post: " ++ exn_str e) = true.
Proof.
  intros Hex Hcall. split; [|split].
  - destruct m; cbn [agent_entry transport_call] in *;
      unfold LangChainBlogAgent_run, LangChainBlogAgent_sync_run,
             bind, try_except, perform;
      rewrite Hex, Hcall; reflexivity.
  - reflexivity.
  - apply prefix_app.
Qed.

(** [sync_run] on an executor whose transport times out. *)
Lemma C5_transport_failure_becomes_reply_witness :
  agent_entry (Raised timeout_error) "<BlogResult>" Sync
    (mkBlogAgent (Some failing_executor)) "topic" []
  = ([Transport "topic"],
     Returned (BlogResult "<BlogResult>"
                 ("Error generating blog post: " ++ exn_str timeout_error)
                 (Some (error_metadata timeout_error)))).
Proof.
  refine (proj1 (C5_transport_failure_becomes_reply
                   (Raised timeout_error) "<BlogResult>" Sync
                   (mkBlogAgent (Some failing_executor)) failing_executor
                   "topic" timeout_error [] _ _)).
  - reflexivity.
  - reflexivity.
Defined.

Lemma stage_result_stored (a : agent) (input : string) (r : value) :
  stage_result a input = Returned r ->
  exists raw,
    raw_answer a input = Returned raw
    /\ r = stored_reply (treatment_of a) raw.
Proof.
  unfold stage_result, raw_answer, treatment_of.
  destruct (select_branch a) as [m|m|m|m|m]; cbn [branch_method];
    destruct (m input) as [raw|e]; cbn [map_outcome]; intros H;
    inversion H; subst r; exists raw; (split; [reflexivity|]);
    try reflexivity;
    destruct raw as [|s|[text|] [content|] md sc]; reflexivity.
Qed.

Lemma stage_log_reply_log (i : nat) (ags : list agent) (evs : list event)
    (rs : list value) :
  stage_log i ags evs rs -> reply_log i ags evs rs.
Proof.
  induction 1 as [|i a rest input r evs rs Ha _ IH]; [constructor|].
  destruct (stage_result_stored a input r Ha) as (raw & Hraw & ->).
  now constructor.
Qed.

(** C6, counterexample.  A one-stage list whose agent is called directly
    (line 75) and answers an object with a [text] attribute: the call
    returns and there is one reply, but the reply is the object itself,
    not the text the normaliser extracts from it. *)
Lemma C6_direct_call_reply_is_raw :
  run (mkWorkflow [called_directly text_only_object]) "T" []
  = ([Call 0 "T"], Returned [text_only_object])
  /\ extract_content text_only_object = VStr "the text"
  /\ isinstance_str text_only_object = false.
Proof. repeat split. Qed.

(** C6, as the code has it.  For a non-empty agent list, if every call
    the run makes to an agent returns, then [run] returns a reply list
    with as many entries as there are agents, one per agent in the
    agents' order; each entry is the agent's raw answer treated by the
    chain of its branch ([reply_log], [stored_reply]): unwrapped one
    level, [content] first for a [get_response] agent and [text] first
    for a [run] / [sync_run] agent, and left as it is for an agent that
    is called directly. *)
Theorem C6_one_stored_reply_per_stage (ags : list agent)
    (initial_input : string) :
  ags <> [] ->
  (forall k a input,
      nth_error ags k = Some a ->
      In (Call k input) (fst (run (mkWorkflow ags) initial_input [])) ->
      exists v, stage_result a input = Returned v) ->
  exists rs,
    snd (run (mkWorkflow ags) initial_input []) = Returned rs
    /\ length rs = length ags
    /\ reply_log 0 ags (fst (run (mkWorkflow ags) initial_input [])) rs.
Proof.
  intros _ Hall.
  pose proof (run_inv (mkWorkflow ags) initial_input) as H.
  cbn [agents] in H.
  destruct (snd (run (mkWorkflow ags) initial_input [])) as [rs|e].
  - exists rs. split; [reflexivity|]. split.
    + now apply stage_log_length in H.
    + now apply stage_log_reply_log.
  - destruct H as (pre & a & post & cpre & rs & input & Hags & Hc & _ & He).
    destruct (Hall (length pre) a input) as [v Hv].
    + rewrite Hags, nth_error_app2, Nat.sub_diag by lia. reflexivity.
    + rewrite Hc. apply in_or_app. right. now left.
    + congruence.
Qed.

(** A [run] agent answering an object and a directly called agent
    answering the same object: the first reply is the object's text, the
    second the object. *)
Lemma C6_one_stored_reply_per_stage_witness :
  exists rs,
    snd (run (mkWorkflow [fixed_reply text_only_object;
                          called_directly text_only_object]) "T" [])
    = Returned rs
    /\ length rs = 2
    /\ reply_log 0 [fixed_reply text_only_object;
                    called_directly text_only_object]
         (fst (run (mkWorkflow [fixed_reply text_only_object;
                                called_directly text_only_object]) "T" []))
         rs.
Proof.
  refine (C6_one_stored_reply_per_stage
            [fixed_reply text_only_object; called_directly text_only_object]
            "T" _ _).
  - discriminate.
  - intros k a input Hnth Hin. vm_compute in Hin.
    destruct Hin as [Heq|[Heq|[]]]; inversion Heq; subst k input;
      simpl in Hnth; inversion Hnth; subst a; eexists; reflexivity.
Defined.

(** C7.  Normalising [None] gives the text "No content generated" and the
    empty metadata mapping. *)
Theorem C7_normalize_None :
  extract_content VNone = VStr "No content generated"
  /\ extract_metadata VNone = []
  /\ normalize VNone = mkSection (VStr "No content generated") [].
Proof. repeat split. Qed.

(** C8.  Normalising a plain string [s] gives [s] itself and the empty
    metadata mapping, and normalising that text again changes nothing. *)
Theorem C8_normalize_string (s : string) :
  normalize (VStr s) = mkSection (VStr s) []
  /\ normalize (content (normalize (VStr s))) = normalize (VStr s).
Proof. split; reflexivity. Qed.

(** C9.  The input prepared for the second stage depends on the first
    stage's text alone: two runs, whatever their topics, agents and raw
    first replies, give their second stage the same input, byte for byte,
    as soon as the first stages' texts are equal. *)
Theorem C9_next_input_depends_on_text_only
    (a0 a1 : agent) (rest : list agent) (initial_input : string) (r : value)
    (a0' a1' : agent) (rest' : list agent) (initial_input' : string)
    (r' : value) :
  stage_result a0 initial_input = Returned r ->
  stage_result a0' initial_input' = Returned r' ->
  str (research_content r) = str (research_content r') ->
  exists x,
    x = blog_prompt (research_content r)
    /\ nth_error (fst (run (mkWorkflow (a0 :: a1 :: rest)) initial_input [])) 1
       = Some (Call 1 x)
    /\ nth_error
         (fst (run (mkWorkflow (a0' :: a1' :: rest')) initial_input' [])) 1
       = Some (Call 1 x).
Proof.
  intros H0 H0' Htext.
  exists (blog_prompt (research_content r)). split; [reflexivity|]. split.
  - now apply second_call.
  - rewrite (blog_prompt_text _ _ Htext). now apply second_call.
Qed.

(** A string reply and an object reply with the same text, in workflows of
    different length and topic. *)
Lemma C9_next_input_depends_on_text_only_witness :
  exists x,
    x = blog_prompt (research_content (VStr "same"))
    /\ nth_error
         (fst (run (mkWorkflow [fixed_reply (VStr "same"); echo_agent])
                   "topic A" [])) 1
       = Some (Call 1 x)
    /\ nth_error
         (fst (run (mkWorkflow
                      [fixed_reply (VObj (Some (VStr "same")) None None "<o>");
                       fixed_reply (VStr "R1"); echo_agent])
                   "topic B" [])) 1
       = Some (Call 1 x).
Proof.
  refine (C9_next_input_depends_on_text_only
            (fixed_reply (VStr "same")) echo_agent [] "topic A" (VStr "same")
            (fixed_reply (VObj (Some (VStr "same")) None None "<o>"))
            (fixed_reply (VStr "R1")) [echo_agent] "topic B" (VStr "same")
            _ _ _); reflexivity.
Defined.

(** C10.  [cleanup] returns normally in every state of the orchestrator:
    with either agent absent or present, with or without a [close]
    attribute, and whether [close] returns or raises. *)
Theorem C10_cleanup_never_raises (self : ResearchToBlogOrchestrator)
    (t : trace) :
  snd (cleanup self t) = Returned tt.
Proof.
  destruct self as [[[ag1 [[[]|e1]|]]|] [[ag2 [[[]|e2]|]]|]]; reflexivity.
Qed.

(** * Further properties of the same code *)

(** ** The calls of [run] *)

Lemma numbered_app (i : nat) (xs ys : list string) :
  numbered i (xs ++ ys) = numbered i xs ++ numbered (i + length xs) ys.
Proof.
  revert i. induction xs as [|x xs IH]; intros i; cbn.
  - now rewrite Nat.add_0_r.
  - now rewrite IH, Nat.add_succ_r.
Qed.

Lemma loop_numbered (n : nat) (rest : list agent) :
  forall (i : nat) (st : loop_state),
    exists inputs,
      fst (loop n i rest st []) = numbered i inputs
      /\ length inputs <= length rest
      /\ (forall st', snd (loop n i rest st []) = Returned st' ->
            length inputs = length rest
            /\ length (results st') = length (results st) + length rest).
Proof.
  induction rest as [|a rest IH]; intros i st.
  - exists []. cbn. split; [reflexivity|]. split; [lia|].
    intros st' H. inversion H. lia.
  - rewrite loop_cons.
    destruct (stage_result a (current_input st)) as [r|e].
    + rewrite loop_frame. cbn [fst snd app].
      destruct (IH (S i)
        (mkLoop (results st ++ [r]) (next_input n i r (current_input st))))
        as (inputs & Htr & Hlen & Hret).
      exists (current_input st :: inputs). cbn [numbered length].
      rewrite Htr. split; [reflexivity|]. split; [lia|].
      intros st' H. destruct (Hret st' H) as [Hi Hr]. cbn [results] in Hr.
      rewrite length_app in Hr. cbn in Hr. lia.
    + exists [current_input st]. cbn. split; [reflexivity|]. split; [lia|].
      discriminate.
Qed.

(** X1.  Whatever the agents do, [run] calls them in list order, each at
    most once and without gaps: the trace grows by calls numbered 0, 1,
    2, ... and never by more calls than there are agents; when [run]
    returns, every agent was called and there is one reply per agent. *)
Theorem run_calls_agents_in_order (ags : list agent) (initial_input : string)
    (t : trace) :
  exists inputs,
    fst (run (mkWorkflow ags) initial_input t) = t ++ numbered 0 inputs
    /\ length inputs <= length ags
    /\ (forall rs,
          snd (run (mkWorkflow ags) initial_input t) = Returned rs ->
          length inputs = length ags /\ length rs = length ags).
Proof.
  destruct (loop_numbered (length ags) ags 0 (mkLoop [] initial_input))
    as (inputs & Htr & Hlen & Hret).
  exists inputs. rewrite run_frame. cbn [fst snd].
  rewrite run_fst, run_snd. cbn [agents]. rewrite Htr.
  split; [reflexivity|]. split; [exact Hlen|].
  intros rs H.
  destruct (snd (loop (length ags) 0 ags (mkLoop [] initial_input) []))
    as [st'|e]; cbn [map_outcome] in H; [|discriminate].
  inversion H; subst rs. destruct (Hret st' eq_refl) as [H1 H2]. auto.
Qed.

Lemma loop_const_inputs (n : nat) (rest : list agent) :
  forall (i : nat) (st : loop_state),
    0 < i ->
    exists k,
      k <= length rest
      /\ fst (loop n i rest st []) = numbered i (repeat (current_input st) k).
Proof.
  induction rest as [|a rest IH]; intros i st Hi.
  - exists 0. split; [lia | reflexivity].
  - rewrite loop_cons.
    destruct (stage_result a (current_input st)) as [r|e].
    + rewrite loop_frame. cbn [fst snd app].
      destruct (IH (S i)
        (mkLoop (results st ++ [r]) (next_input n i r (current_input st))))
        as (k & Hk & Htr); [lia|].
      exists (S k). split; [cbn; lia|].
      rewrite Htr. cbn [current_input repeat numbered].
      unfold next_input. destruct i; [lia | reflexivity].
    + exists 1. split; [cbn; lia | reflexivity].
Qed.

(** X2.  When the first agent returns [r0], the whole trace of a run is
    known: the first agent is given the topic and every later agent that
    gets called is given one and the same prompt, the one built from
    [r0]. *)
Theorem run_trace_shape (a0 : agent) (rest : list agent)
    (initial_input : string) (r0 : value) :
  stage_result a0 initial_input = Returned r0 ->
  exists k,
    k <= length rest
    /\ fst (run (mkWorkflow (a0 :: rest)) initial_input [])
       = numbered 0
           (initial_input :: repeat (blog_prompt (research_content r0)) k).
Proof.
  intros H0. rewrite run_fst. cbn [agents].
  rewrite loop_cons. cbn [current_input results]. rewrite H0.
  rewrite loop_frame. cbn [fst app].
  match goal with
  | |- context [loop ?n 1 rest ?st []] =>
      destruct (loop_const_inputs n rest 1 st) as (k & Hk & Htr); [lia|]
  end.
  exists k. split; [exact Hk|]. rewrite Htr. cbn [current_input numbered].
  destruct rest as [|a1 rest].
  - assert (k = 0) by (cbn in Hk; lia). subst k. reflexivity.
  - reflexivity.
Qed.

Lemma run_trace_shape_witness :
  exists k,
    k <= 2
    /\ fst (run (mkWorkflow
                   [fixed_reply (VStr "R0"); fixed_reply (VStr "R1");
                    echo_agent]) "T" [])
       = numbered 0 ("T" :: repeat (blog_prompt (research_content (VStr "R0"))) k).
Proof.
  refine (run_trace_shape (fixed_reply (VStr "R0"))
            [fixed_reply (VStr "R1"); echo_agent] "T" (VStr "R0") _).
  reflexivity.
Defined.

(** ** [create_blog_from_topic] end to end *)

Lemma run_two_stages (a0 a1 : agent) (initial_input : string) (r0 r1 : value) :
  stage_result a0 initial_input = Returned r0 ->
  stage_result a1 (blog_prompt (research_content r0)) = Returned r1 ->
  run (mkWorkflow [a0; a1]) initial_input []
  = ([Call 0 initial_input; Call 1 (blog_prompt (research_content r0))],
     Returned [r0; r1]).
Proof.
  intros H0 H1. unfold run, bind. cbn [agents length].
  rewrite loop_cons. cbn [current_input results]. rewrite H0.
  rewrite loop_cons. cbn [current_input results].
  change (next_input 2 0 r0 initial_input)
    with (blog_prompt (research_content r0)).
  rewrite H1. reflexivity.
Qed.

(** X3.  With both agents in place and both stages returning, the
    orchestrator makes exactly two calls - the topic to the research
    agent, the prompt built from its reply to the blog agent - and returns
    the topic, both replies normalised, and the status "completed";
    [initialize] plays no part. *)
Theorem create_blog_two_stage_result
    (initialize : ResearchToBlogOrchestrator -> outcome ResearchToBlogOrchestrator)
    (h1 h2 : handle) (tp : string) (t : trace) (r0 r1 : value) :
  stage_result (as_agent h1) tp = Returned r0 ->
  stage_result (as_agent h2) (blog_prompt (research_content r0)) = Returned r1 ->
  create_blog_from_topic initialize (mkOrchestrator (Some h1) (Some h2)) tp t
  = (t ++ [Call 0 tp; Call 1 (blog_prompt (research_content r0))],
     Returned (mkResults tp (normalize r0) (normalize r1) "completed")).
Proof.
  intros H0 H1. rewrite create_blog_initialised.
  rewrite (run_two_stages _ _ _ _ _ H0 H1). reflexivity.
Qed.

Lemma create_blog_two_stage_result_witness :
  create_blog_from_topic (fun self => Raised timeout_error)
    (mkOrchestrator (Some (mkHandle (fixed_reply (VStr "R0")) None))
                    (Some (mkHandle echo_agent None))) "T" []
  = ([] ++ [Call 0 "T"; Call 1 (blog_prompt (research_content (VStr "R0")))],
     Returned (mkResults "T" (normalize (VStr "R0"))
                 (normalize (VStr (blog_prompt (research_content (VStr "R0")))))
                 "completed")).
Proof.
  refine (create_blog_two_stage_result (fun self => Raised timeout_error)
            (mkHandle (fixed_reply (VStr "R0")) None)
            (mkHandle echo_agent None) "T" [] (VStr "R0")
            (VStr (blog_prompt (research_content (VStr "R0")))) _ _);
    reflexivity.
Defined.

(** X4.  When an agent is missing and [initialize] raises, the exception
    leaves [create_blog_from_topic] before any agent is called. *)
Theorem create_blog_initialize_failure
    (initialize : ResearchToBlogOrchestrator -> outcome ResearchToBlogOrchestrator)
    (self : ResearchToBlogOrchestrator) (tp : string) (t : trace) (e : exn) :
  research_agent self = None \/ blog_agent self = None ->
  initialize self = Raised e ->
  create_blog_from_topic initialize self tp t = (t, Raised e).
Proof.
  intros Hmissing Hinit. unfold create_blog_from_topic, bind, lift.
  assert (Hneed : negb (truthy (research_agent self))
                  || negb (truthy (blog_agent self)) = true).
  { destruct Hmissing as [H|H]; rewrite H; cbn;
      [reflexivity | now rewrite orb_true_r]. }
  rewrite Hneed, Hinit. reflexivity.
Qed.

Lemma create_blog_initialize_failure_witness :
  create_blog_from_topic (fun self => Raised timeout_error)
    ResearchToBlogOrchestrator_init "T" []
  = ([], Raised timeout_error).
Proof.
  refine (create_blog_initialize_failure (fun self => Raised timeout_error)
            ResearchToBlogOrchestrator_init "T" [] timeout_error _ _).
  - left. reflexivity.
  - reflexivity.
Defined.

(** X5.  When [initialize] returns but leaves the research agent [None]
    (its early return after a failed import), the workflow is run on
    [None] and [create_blog_from_topic] raises the [TypeError] of calling
    [None]. *)
Theorem create_blog_on_missing_research_agent
    (initialize : ResearchToBlogOrchestrator -> outcome ResearchToBlogOrchestrator)
    (self self' : ResearchToBlogOrchestrator) (tp : string) (t : trace) :
  research_agent self = None \/ blog_agent self = None ->
  initialize self = Returned self' ->
  research_agent self' = None ->
  snd (create_blog_from_topic initialize self tp t)
  = Raised (mkExn "TypeError" "'NoneType' object is not callable").
Proof.
  intros Hmissing Hinit Hnone.
  unfold create_blog_from_topic, bind, lift, SequentialWorkflow_init.
  assert (Hneed : negb (truthy (research_agent self))
                  || negb (truthy (blog_agent self)) = true).
  { destruct Hmissing as [H|H]; rewrite H; cbn;
      [reflexivity | now rewrite orb_true_r]. }
  rewrite Hneed, Hinit, Hnone. cbn [workflow_agent].
  rewrite run_frame. cbn [fst snd]. rewrite run_snd. cbn [agents].
  rewrite loop_cons. reflexivity.
Qed.

Lemma create_blog_on_missing_research_agent_witness :
  snd (create_blog_from_topic (fun self => Returned self)
         ResearchToBlogOrchestrator_init "T" [])
  = Raised (mkExn "TypeError" "'NoneType' object is not callable").
Proof.
  refine (create_blog_on_missing_research_agent (fun self => Returned self)
            ResearchToBlogOrchestrator_init ResearchToBlogOrchestrator_init
            "T" [] _ _ _).
  - left. reflexivity.
  - reflexivity.
  - reflexivity.
Defined.

(** ** [cleanup] *)

Lemma cleanup_trace (self : ResearchToBlogOrchestrator) (t : trace) :
  cleanup self t
  = (t ++ close_call Research (research_agent self)
       ++ close_call Blog (blog_agent self),
     Returned tt).
Proof.
  destruct self as [[[ag1 [[[]|e1]|]]|] [[ag2 [[[]|e2]|]]|]];
    cbn; rewrite <- ?app_assoc, ?app_nil_r; reflexivity.
Qed.

(** X6.  [cleanup] tries to close each agent that is present and has a
    [close] attribute exactly once, the research agent first, and the
    attempt on the blog agent is made whether or not closing the research
    agent raised; it then returns normally. *)
Theorem cleanup_closes_each_agent_once (self : ResearchToBlogOrchestrator)
    (t : trace) :
  cleanup self t
  = (t ++ close_call Research (research_agent self)
       ++ close_call Blog (blog_agent self),
     Returned tt).
Proof. apply cleanup_trace. Qed.

(** ** [LangChainBlogAgent] *)

(** X7.  Once the agent has (or has initialised) an executor, [run] and
    [sync_run] make exactly one executor call and always return a
    [BlogResult] whose metadata names the agent type - whether the
    executor returns, raises, or returns a result without "output". *)
Theorem langchain_always_replies (initialize : outcome AgentExecutor)
    (BlogResult_str : string) (m : entry) (self : LangChainBlogAgent)
    (executor : AgentExecutor) (input_text : string) (t : trace) :
  ensure_executor initialize self t = (t, Returned executor) ->
  exists txt md,
    agent_entry initialize BlogResult_str m self input_text t
    = (t ++ [Transport input_text],
       Returned (BlogResult BlogResult_str txt (Some md)))
    /\ In ("agent_type", MStr "langchain") md.
Proof.
  intros Hex.
  destruct m; cbn [agent_entry];
    unfold LangChainBlogAgent_run, LangChainBlogAgent_sync_run,
           bind, try_except, perform, getitem_output, error_result, ret, raise;
    rewrite Hex.
  - destruct (ainvoke executor input_text) as [res|e];
      [destruct (output res) as [s|]|];
      eexists; eexists; (split; [reflexivity | cbn; auto]).
  - destruct (invoke executor input_text) as [res|e];
      [destruct (output res) as [s|]|];
      eexists; eexists; (split; [reflexivity | cbn; auto]).
Qed.

Lemma langchain_always_replies_witness :
  exists txt md,
    agent_entry (Raised timeout_error) "<BlogResult>" Async
      (mkBlogAgent (Some failing_executor)) "topic" []
    = ([] ++ [Transport "topic"],
       Returned (BlogResult "<BlogResult>" txt (Some md)))
    /\ In ("agent_type", MStr "langchain") md.
Proof.
  refine (langchain_always_replies (Raised timeout_error) "<BlogResult>" Async
            (mkBlogAgent (Some failing_executor)) failing_executor "topic" []
            _).
  reflexivity.
Defined.

(** X8.  An executor result without an "output" key is answered like a
    transport failure: the [KeyError] is caught and the reply's text is
    "Error generating blog post: 'output'". *)
Theorem langchain_missing_output_key (initialize : outcome AgentExecutor)
    (BlogResult_str : string) (m : entry) (self : LangChainBlogAgent)
    (executor : AgentExecutor) (input_text : string) (res : invoke_result)
    (t : trace) :
  ensure_executor initialize self t = (t, Returned executor) ->
  transport_call m executor input_text = Returned res ->
  output res = None ->
  agent_entry initialize BlogResult_str m self input_text t
  = (t ++ [Transport input_text],
     Returned (BlogResult BlogResult_str
                 "Error generating blog post: 'output'"
                 (Some [("error", MStr "'output'");
                        ("agent_type", MStr "langchain")]))).
Proof.
  intros Hex Hcall Hout.
  destruct m; cbn [agent_entry transport_call] in *;
    unfold LangChainBlogAgent_run, LangChainBlogAgent_sync_run,
           bind, try_except, perform, getitem_output;
    rewrite Hex, Hcall, Hout; reflexivity.
Qed.

Lemma langchain_missing_output_key_witness :
  agent_entry (Raised timeout_error) "<BlogResult>" Async
    (mkBlogAgent
       (Some (mkExecutor (fun _ => Returned (mkInvokeResult None None))
                         (fun _ => Raised timeout_error)))) "topic" []
  = ([] ++ [Transport "topic"],
     Returned (BlogResult "<BlogResult>"
                 "Error generating blog post: 'output'"
                 (Some [("error", MStr "'output'");
                        ("agent_type", MStr "langchain")]))).
Proof.
  refine (langchain_missing_output_key (Raised timeout_error) "<BlogResult>"
            Async _
            (mkExecutor (fun _ => Returned (mkInvokeResult None None))
                        (fun _ => Raised timeout_error))
            "topic" (mkInvokeResult None None) [] _ _ _); reflexivity.
Defined.

(** X9.  The initialisation of a missing executor is outside the [try]:
    when it raises, [run] and [sync_run] raise the same exception and the
    executor is never called. *)
Theorem langchain_initialize_failure_escapes (BlogResult_str : string)
    (m : entry) (self : LangChainBlogAgent) (input_text : string) (e : exn)
    (t : trace) :
  agent_executor self = None ->
  agent_entry (Raised e) BlogResult_str m self input_text t = (t, Raised e).
Proof.
  intros Hnone.
  destruct m; cbn [agent_entry];
    unfold LangChainBlogAgent_run, LangChainBlogAgent_sync_run,
           bind, ensure_executor, lift;
    rewrite Hnone; reflexivity.
Qed.

Lemma langchain_initialize_failure_escapes_witness :
  agent_entry (Raised timeout_error) "<BlogResult>" Sync (mkBlogAgent None)
    "topic" []
  = ([], Raised timeout_error).
Proof.
  refine (langchain_initialize_failure_escapes "<BlogResult>" Sync
            (mkBlogAgent None) "topic" timeout_error [] _).
  reflexivity.
Defined.

(** X10.  [sync_run] always returns the executor's output as it is;
    [run] does so whenever the output contains neither "The blog has been
    formatted" nor "optimized for SEO". *)
Theorem langchain_output_passes_through (initialize : outcome AgentExecutor)
    (BlogResult_str : string) (m : entry) (self : LangChainBlogAgent)
    (executor : AgentExecutor) (input_text : string) (res : invoke_result)
    (s : string) (t : trace) :
  ensure_executor initialize self t = (t, Returned executor) ->
  transport_call m executor input_text = Returned res ->
  output res = Some s ->
  m = Sync \/ marked s = false ->
  agent_entry initialize BlogResult_str m self input_text t
  = (t ++ [Transport input_text],
     Returned (BlogResult BlogResult_str s (Some (success_metadata res)))).
Proof.
  intros Hex Hcall Hout Hcase.
  destruct m; cbn [agent_entry transport_call] in *;
    unfold LangChainBlogAgent_run, LangChainBlogAgent_sync_run,
           bind, try_except, perform, getitem_output, ret;
    rewrite Hex, Hcall, Hout.
  - destruct Hcase as [Hm|Hmark]; [discriminate|].
    unfold marked in Hmark. rewrite Hmark. reflexivity.
  - reflexivity.
Qed.

Lemma langchain_output_passes_through_witness :
  agent_entry (Raised timeout_error) "<BlogResult>" Async
    (mkBlogAgent
       (Some (mkExecutor
                (fun _ => Returned (mkInvokeResult (Some "# A post") None))
                (fun _ => Raised timeout_error)))) "topic" []
  = ([] ++ [Transport "topic"],
     Returned (BlogResult "<BlogResult>" "# A post"
                 (Some (success_metadata
                          (mkInvokeResult (Some "# A post") None))))).
Proof.
  refine (langchain_output_passes_through (Raised timeout_error)
            "<BlogResult>" Async _
            (mkExecutor
               (fun _ => Returned (mkInvokeResult (Some "# A post") None))
               (fun _ => Raised timeout_error))
            "topic" (mkInvokeResult (Some "# A post") None) "# A post" []
            _ _ _ _); try reflexivity.
  right. reflexivity.
Defined.

(** X11.  The replacement of lines 228-237 takes the first step, in list
    order, that belongs to a formatting tool and whose output is longer
    than 500 characters, and leaves the output alone when there is none;
    so a replaced output is always longer than 500 characters. *)
Theorem first_substantial_is_first_match (steps : list step) (output : string) :
  first_substantial steps output
  = match find substantial steps with
    | Some (Step _ tool_output_str) => tool_output_str
    | _ => output
    end
  /\ (first_substantial steps output = output
      \/ 500 < String.length (first_substantial steps output)).
Proof.
  induction steps as [|s steps [IH1 IH2]].
  - cbn. auto.
  - destruct s as [|[tool|] out];
      cbn [first_substantial find substantial]; auto.
    destruct (formatting_tool tool && (500 <? String.length out)%nat) eqn:E.
    + split; [reflexivity|]. right.
      apply andb_prop in E. destruct E as [_ E]. now apply Nat.ltb_lt in E.
    + auto.
Qed.

(** ** The extraction chains and the prompt *)

(** X12.  The chain of [extract_content] and the text-first chain of
    [run] give the same result on every value but [None]; the
    content-first chain agrees with them too unless the value exposes
    both attributes. *)
Theorem extraction_chains_agree (v : value) :
  v <> VNone ->
  extract_content v = unwrap_text_first v
  /\ (hasattr v a_text && hasattr v a_content = false ->
      unwrap_content_first v = unwrap_text_first v).
Proof.
  intros Hv. destruct v as [|s|[text|] [content|] md sc]; cbn;
    try (split; [reflexivity | intros; try reflexivity; try discriminate]).
  now destruct Hv.
Qed.

Lemma extraction_chains_agree_witness :
  extract_content (VObj None (Some (VStr "C")) None "<o>")
  = unwrap_text_first (VObj None (Some (VStr "C")) None "<o>").
Proof.
  refine (proj1 (extraction_chains_agree
                   (VObj None (Some (VStr "C")) None "<o>") _)).
  discriminate.
Defined.

Lemma string_append_assoc (a b c : string) :
  ((a ++ b) ++ c = a ++ (b ++ c))%string.
Proof. induction a as [|x a IH]; cbn; [reflexivity | now rewrite IH]. Qed.

Lemma string_length_append (a b : string) :
  String.length (a ++ b) = String.length a + String.length b.
Proof. induction a as [|x a IH]; cbn; [reflexivity | now rewrite IH]. Qed.

Lemma string_append_inv_head (s a b : string) :
  (s ++ a = s ++ b)%string -> a = b.
Proof.
  induction s as [|x s IH]; cbn; intros H; [exact H|].
  inversion H. auto.
Qed.

Lemma string_append_inv_tail (s : string) :
  forall a b : string, (a ++ s = b ++ s)%string -> a = b.
Proof.
  induction a as [|x a IH]; intros [|y b] H; cbn in H.
  - reflexivity.
  - apply (f_equal String.length) in H. cbn in H.
    rewrite string_length_append in H. lia.
  - apply (f_equal String.length) in H. cbn in H.
    rewrite string_length_append in H. lia.
  - inversion H. f_equal. now apply IH.
Qed.

Lemma blog_prompt_split (v : value) :
  blog_prompt v = (prompt_head ++ str v ++ prompt_tail)%string.
Proof.
  unfold blog_prompt, prompt_head, prompt_tail, line.
  now rewrite !string_append_assoc.
Qed.

(** X13.  The prompt is the research text placed verbatim between a fixed
    head and a fixed tail: it is 646 characters longer than the text, and
    two research results give the same prompt exactly when their texts
    are equal. *)
Theorem blog_prompt_embeds_text (v v' : value) :
  blog_prompt v = (prompt_head ++ str v ++ prompt_tail)%string
  /\ String.length (blog_prompt v) = 646 + String.length (str v)
  /\ (blog_prompt v = blog_prompt v' <-> str v = str v').
Proof.
  split; [apply blog_prompt_split|]. split.
  - rewrite blog_prompt_split, !string_length_append.
    change (String.length prompt_head) with 153.
    change (String.length prompt_tail) with 493. lia.
  - split.
    + rewrite !blog_prompt_split. intros H.
      apply string_append_inv_head in H.
      now apply string_append_inv_tail in H.
    + apply blog_prompt_text.
Qed.

(** ** The LangChain agent as the blog stage *)

Lemma LangChainBlogAgent_run_replies (initialize : outcome AgentExecutor)
    (BlogResult_str : string) (self : LangChainBlogAgent)
    (executor : AgentExecutor) (input_text : string) :
  agent_executor self = Some executor ->
  exists txt md,
    LangChainBlogAgent_run initialize BlogResult_str self input_text []
    = ([Transport input_text],
       Returned (BlogResult BlogResult_str txt (Some md)))
    /\ In ("agent_type", MStr "langchain") md
    /\ (forall e, ainvoke executor input_text = Raised e ->
          txt = ("Error generating blog post: " ++ exn_str e)%string).
Proof.
  intros Hex.
  assert (Hens : ensure_executor initialize self [] = ([], Returned executor))
    by (unfold ensure_executor; rewrite Hex; reflexivity).
  unfold LangChainBlogAgent_run, bind, try_except, perform, getitem_output,
         error_result, ret, raise.
  rewrite Hens.
  destruct (ainvoke executor input_text) as [res|e];
    [destruct (output res) as [s|]|];
    eexists; eexists;
    (split; [reflexivity | split; [cbn; auto | intros e' He'; try discriminate]]).
  inversion He'. reflexivity.
Qed.

(** X14.  With a research agent that returns and a [LangChainBlogAgent]
    that has its executor as the blog stage, [create_blog_from_topic]
    always returns with status "completed", also when the executor call
    fails (the blog content is then the error text).  The blog entry
    holds the reply's text only: the metadata the agent attached to its
    reply is not carried over, the entry's metadata is empty. *)
Theorem workflow_keeps_langchain_text_only
    (initialize : ResearchToBlogOrchestrator -> outcome ResearchToBlogOrchestrator)
    (initialize_blog : outcome AgentExecutor) (BlogResult_str : string)
    (self : LangChainBlogAgent) (executor : AgentExecutor)
    (h1 h2 : handle) (tp : string) (t : trace) (r0 : value) :
  stage_result (as_agent h1) tp = Returned r0 ->
  agent_executor self = Some executor ->
  as_agent h2 = langchain_agent initialize_blog BlogResult_str self ->
  exists txt md,
    snd (LangChainBlogAgent_run initialize_blog BlogResult_str self
           (blog_prompt (research_content r0)) [])
    = Returned (BlogResult BlogResult_str txt (Some md))
    /\ In ("agent_type", MStr "langchain") md
    /\ (forall e,
          ainvoke executor (blog_prompt (research_content r0)) = Raised e ->
          txt = ("Error generating blog post: " ++ exn_str e)%string)
    /\ create_blog_from_topic initialize
         (mkOrchestrator (Some h1) (Some h2)) tp t
       = (t ++ [Call 0 tp; Call 1 (blog_prompt (research_content r0))],
          Returned (mkResults tp (normalize r0) (mkSection (VStr txt) [])
                      "completed")).
Proof.
  intros H0 Hex Hh2.
  destruct (LangChainBlogAgent_run_replies initialize_blog BlogResult_str self
              executor (blog_prompt (research_content r0)) Hex)
    as (txt & md & Hrun & Hmd & Herr).
  exists txt, md. rewrite Hrun. repeat split; auto.
  rewrite create_blog_initialised.
  rewrite (run_two_stages _ _ _ r0 (VStr txt) H0).
  - reflexivity.
  - rewrite Hh2. unfold stage_result, langchain_agent. cbn [select_branch
      get_response run_attr]. rewrite Hrun. reflexivity.
Qed.

Lemma workflow_keeps_langchain_text_only_witness :
  exists txt md,
    snd (LangChainBlogAgent_run (Raised timeout_error) "<BlogResult>"
           (mkBlogAgent (Some failing_executor))
           (blog_prompt (research_content (VStr "R0"))) [])
    = Returned (BlogResult "<BlogResult>" txt (Some md))
    /\ In ("agent_type", MStr "langchain") md
    /\ (forall e,
          ainvoke failing_executor (blog_prompt (research_content (VStr "R0")))
          = Raised e ->
          txt = ("Error generating blog post: " ++ exn_str e)%string)
    /\ create_blog_from_topic (fun self => Raised timeout_error)
         (mkOrchestrator
            (Some (mkHandle (fixed_reply (VStr "R0")) None))
            (Some (mkHandle
                     (langchain_agent (Raised timeout_error) "<BlogResult>"
                        (mkBlogAgent (Some failing_executor))) None)))
         "T" []
       = ([] ++ [Call 0 "T"; Call 1 (blog_prompt (research_content (VStr "R0")))],
          Returned (mkResults "T" (normalize (VStr "R0"))
                      (mkSection (VStr txt) []) "completed")).
Proof.
  refine (workflow_keeps_langchain_text_only (fun self => Raised timeout_error)
            (Raised timeout_error) "<BlogResult>"
            (mkBlogAgent (Some failing_executor)) failing_executor
            (mkHandle (fixed_reply (VStr "R0")) None)
            (mkHandle
               (langchain_agent (Raised timeout_error) "<BlogResult>"
                  (mkBlogAgent (Some failing_executor))) None)
            "T" [] (VStr "R0") _ _ _); reflexivity.
Defined.

(** ** The DevUI wrappers *)


(** X16.  A failing executor call is answered by the agent's own handler:
    the wrapper returns "Error generating blog post: ..." and its outer
    handler ("Blog generation error: ...") is not involved. *)
Theorem blog_wrapper_transport_failure (initialize : outcome AgentExecutor)
    (BlogResult_str : string) (self : BlogAgentForDevUI.t)
    (executor : AgentExecutor) (q : query) (e : exn) (t : trace) :
  ensure_executor initialize (BlogAgentForDevUI.blog_agent self) t
  = (t, Returned executor) ->
  ainvoke executor (query_text q) = Raised e ->
  BlogAgentForDevUI.run initialize BlogResult_str self q t
  = (t ++ [Transport (query_text q)],
     Returned (VStr ("Error generating blog post: " ++ exn_str e))).
Proof.
  intros Hex Hcall.
  unfold BlogAgentForDevUI.run, LangChainBlogAgent_run, try_except, bind,
         perform.
  rewrite Hex, Hcall. reflexivity.
Qed.

Lemma blog_wrapper_transport_failure_witness :
  BlogAgentForDevUI.run (Raised timeout_error) "<BlogResult>"
    (BlogAgentForDevUI.mk (mkBlogAgent (Some failing_executor)))
    (QMessage (Some "Write about tea") None "<ChatMessage>") []
  = ([] ++ [Transport "Write about tea"],
     Returned (VStr ("Error generating blog post: " ++ exn_str timeout_error))).
Proof.
  refine (blog_wrapper_transport_failure (Raised timeout_error) "<BlogResult>"
            (BlogAgentForDevUI.mk (mkBlogAgent (Some failing_executor)))
            failing_executor
            (QMessage (Some "Write about tea") None "<ChatMessage>")
            timeout_error [] _ _); reflexivity.
Defined.

(** X17.  A failing initialisation of the blog agent, which the agent
    itself lets through, is answered by the wrapper's handler: it returns
    "Blog generation error: ..." and the executor is never called. *)
Theorem blog_wrapper_initialize_failure (BlogResult_str : string)
    (self : BlogAgentForDevUI.t) (q : query) (e : exn) (t : trace) :
  agent_executor (BlogAgentForDevUI.blog_agent self) = None ->
  BlogAgentForDevUI.run (Raised e) BlogResult_str self q t
  = (t, Returned (VStr ("Blog generation error: " ++ exn_str e))).
Proof.
  intros Hnone.
  unfold BlogAgentForDevUI.run, LangChainBlogAgent_run, try_except, bind,
         ensure_executor, lift.
  rewrite Hnone. reflexivity.
Qed.

Lemma blog_wrapper_initialize_failure_witness :
  BlogAgentForDevUI.run (Raised timeout_error) "<BlogResult>"
    (BlogAgentForDevUI.mk (mkBlogAgent None)) (QStr "tea") []
  = ([], Returned (VStr ("Blog generation error: " ++ exn_str timeout_error))).
Proof.
  refine (blog_wrapper_initialize_failure "<BlogResult>"
            (BlogAgentForDevUI.mk (mkBlogAgent None)) (QStr "tea")
            timeout_error [] _).
  reflexivity.
Defined.

(** X18.  [OrchestratorAgentForDevUI.run] never raises: whatever
    initialisation and the agents do, it returns a text; [run_stream]
    therefore yields exactly one chunk, that text. *)
Theorem orchestrator_wrapper_always_answers
    (initialize : ResearchToBlogOrchestrator -> outcome ResearchToBlogOrchestrator)
    (bar_chart memo : string) (self : OrchestratorAgentForDevUI.t) (q : query)
    (t : trace) :
  exists s,
    snd (OrchestratorAgentForDevUI.run initialize bar_chart memo self q t)
    = Returned s
    /\ snd (OrchestratorAgentForDevUI.run_stream initialize bar_chart memo
              self q t)
       = Returned [s].
Proof.
  unfold OrchestratorAgentForDevUI.run_stream, OrchestratorAgentForDevUI.run.
  set (body := bind (OrchestratorAgentForDevUI._ensure_initialized
                       initialize self) _).
  unfold try_except, bind, ret.
  destruct (body t) as [t' [s|e]]; eexists; split; reflexivity.
Qed.

Lemma contains_eq (needle hay : string) :
  contains needle hay
  = prefix needle hay
    || match hay with
       | EmptyString => false
       | String _ hay' => contains needle hay'
       end.
Proof. destruct hay; reflexivity. Qed.

Lemma contains_app_mid (x a b : string) :
  contains x (a ++ x ++ b) = true.
Proof.
  induction a as [|c a IH].
  - cbn [append]. rewrite contains_eq, prefix_app. reflexivity.
  - cbn [append]. rewrite contains_eq, IH. apply orb_true_r.
Qed.

(** X19.  Once the wrapper is initialised with both agents in place, an
    exception that escapes [SequentialWorkflow.run] ends in the wrapper's
    handler: [OrchestratorAgentForDevUI.run] makes the calls the workflow
    made and returns the "# Orchestrator Workflow Error" page, which
    carries the exception text after "**Error Details:** ". *)
Theorem orchestrator_wrapper_reports_stage_failure
    (initialize : ResearchToBlogOrchestrator -> outcome ResearchToBlogOrchestrator)
    (bar_chart memo : string) (self self' : OrchestratorAgentForDevUI.t)
    (h1 h2 : handle) (q : query) (e : exn) (t : trace) :
  OrchestratorAgentForDevUI._ensure_initialized initialize self t
  = (t, Returned self') ->
  OrchestratorAgentForDevUI.orchestrator self'
  = mkOrchestrator (Some h1) (Some h2) ->
  snd (run (mkWorkflow [as_agent h1; as_agent h2]) (query_text q) [])
  = Raised e ->
  OrchestratorAgentForDevUI.run initialize bar_chart memo self q t
  = (t ++ fst (run (mkWorkflow [as_agent h1; as_agent h2]) (query_text q) []),
     Returned (OrchestratorAgentForDevUI.error_page e))
  /\ prefix "# Orchestrator Workflow Error"
            (OrchestratorAgentForDevUI.error_page e) = true
  /\ contains ("**Error Details:** " ++ exn_str e)
              (OrchestratorAgentForDevUI.error_page e) = true.
Proof.
  intros Hinit Horch Hrun. split; [|split].
  - unfold OrchestratorAgentForDevUI.run, try_except. unfold bind at 1.
    rewrite Hinit, Horch. unfold bind.
    rewrite create_blog_initialised, Hrun. reflexivity.
  - reflexivity.
  - change (OrchestratorAgentForDevUI.error_page e)
      with ((text_lines ["# Orchestrator Workflow Error"; "";
                         "Unable to complete the research-to-blog workflow.";
                         ""] ++ nl)
            ++ ("**Error Details:** " ++ exn_str e)
            ++ (nl ++ text_lines
                  [""; "**Troubleshooting:**";
                   "1. Ensure both research and blog agents are properly configured";
                   "2. Check Azure AI and LangChain authentication";
                   "3. Verify all required environment variables are set";
                   "";
                   "The orchestrator combines research and blog creation in a sequential workflow."]))%string.
    apply contains_app_mid.
Qed.

Lemma orchestrator_wrapper_reports_stage_failure_witness :
  OrchestratorAgentForDevUI.run (fun self => Raised timeout_error) "[1]" "[2]"
    (OrchestratorAgentForDevUI.mk
       (mkOrchestrator (Some (mkHandle (failing_agent timeout_error) None))
                       (Some (mkHandle echo_agent None))) true)
    (QStr "tea") []
  = ([] ++ fst (run (mkWorkflow [failing_agent timeout_error; echo_agent])
                    (query_text (QStr "tea")) []),
     Returned (OrchestratorAgentForDevUI.error_page timeout_error)).
Proof.
  refine (proj1 (orchestrator_wrapper_reports_stage_failure
                   (fun self => Raised timeout_error) "[1]" "[2]"
                   (OrchestratorAgentForDevUI.mk
                      (mkOrchestrator
                         (Some (mkHandle (failing_agent timeout_error) None))
                         (Some (mkHandle echo_agent None))) true)
                   (OrchestratorAgentForDevUI.mk
                      (mkOrchestrator
                         (Some (mkHandle (failing_agent timeout_error) None))
                         (Some (mkHandle echo_agent None))) true)
                   (mkHandle (failing_agent timeout_error) None)
                   (mkHandle echo_agent None)
                   (QStr "tea") timeout_error [] _ _ _)); reflexivity.
Defined.

(** X20.  Once the wrapper is initialised with both agents in place and
    both stages return, [OrchestratorAgentForDevUI.run] makes the two
    calls of the workflow and returns the results page built from the two
    normalised contents. *)
Theorem orchestrator_wrapper_success_page
    (initialize : ResearchToBlogOrchestrator -> outcome ResearchToBlogOrchestrator)
    (bar_chart memo : string) (self self' : OrchestratorAgentForDevUI.t)
    (h1 h2 : handle) (q : query) (r0 r1 : value) (t : trace) :
  OrchestratorAgentForDevUI._ensure_initialized initialize self t
  = (t, Returned self') ->
  OrchestratorAgentForDevUI.orchestrator self'
  = mkOrchestrator (Some h1) (Some h2) ->
  stage_result (as_agent h1) (query_text q) = Returned r0 ->
  stage_result (as_agent h2) (blog_prompt (research_content r0)) = Returned r1 ->
  OrchestratorAgentForDevUI.run initialize bar_chart memo self q t
  = (t ++ [Call 0 (query_text q); Call 1 (blog_prompt (research_content r0))],
     Returned (OrchestratorAgentForDevUI.combined_result bar_chart memo
                 (extract_content r0) (extract_content r1))).
Proof.
  intros Hinit Horch H0 H1.
  unfold OrchestratorAgentForDevUI.run, try_except. unfold bind at 1.
  rewrite Hinit, Horch. unfold bind.
  rewrite create_blog_initialised, (run_two_stages _ _ _ _ _ H0 H1).
  reflexivity.
Qed.

Lemma orchestrator_wrapper_success_page_witness :
  OrchestratorAgentForDevUI.run (fun self => Raised timeout_error) "[1]" "[2]"
    (OrchestratorAgentForDevUI.mk
       (mkOrchestrator (Some (mkHandle (fixed_reply (VStr "R0")) None))
                       (Some (mkHandle (fixed_reply (VStr "R1")) None))) true)
    (QStr "tea") []
  = ([] ++ [Call 0 (query_text (QStr "tea"));
            Call 1 (blog_prompt (research_content (VStr "R0")))],
     Returned (OrchestratorAgentForDevUI.combined_result "[1]" "[2]"
                 (extract_content (VStr "R0")) (extract_content (VStr "R1")))).
Proof.
  refine (orchestrator_wrapper_success_page
            (fun self => Raised timeout_error) "[1]" "[2]"
            (OrchestratorAgentForDevUI.mk
               (mkOrchestrator (Some (mkHandle (fixed_reply (VStr "R0")) None))
                               (Some (mkHandle (fixed_reply (VStr "R1")) None)))
               true)
            (OrchestratorAgentForDevUI.mk
               (mkOrchestrator (Some (mkHandle (fixed_reply (VStr "R0")) None))
                               (Some (mkHandle (fixed_reply (VStr "R1")) None)))
               true)
            (mkHandle (fixed_reply (VStr "R0")) None)
            (mkHandle (fixed_reply (VStr "R1")) None)
            (QStr "tea") (VStr "R0") (VStr "R1") [] _ _ _ _); reflexivity.
Defined.

(** ** The formatting tools *)

Lemma split_lines_nonempty (s : string) : split_lines s <> [].
Proof.
  induction s as [|c s IH]; cbn [split_lines]; [discriminate|].
  destruct (Ascii.eqb c newline); [discriminate|].
  destruct (split_lines s); discriminate.
Qed.

Lemma join_lines_cons (x y : string) (ls : list string) :
  join_lines (x :: y :: ls) = (x ++ nl ++ join_lines (y :: ls))%string.
Proof. reflexivity. Qed.

(** Joining the lines of a text gives the text back. *)
Lemma join_split_lines (s : string) : join_lines (split_lines s) = s.
Proof.
  induction s as [|c s IH]; [reflexivity|].
  cbn [split_lines]. pose proof (split_lines_nonempty s) as Hne.
  destruct (Ascii.eqb c newline) eqn:Hc.
  - apply Ascii.eqb_eq in Hc. subst c.
    destruct (split_lines s) as [|l ls]; [now destruct Hne|].
    rewrite join_lines_cons, IH. reflexivity.
  - destruct (split_lines s) as [|l ls]; [now destruct Hne|].
    destruct ls as [|l' ls].
    + cbn in IH |- *. now rewrite IH.
    + rewrite join_lines_cons in IH |- *. cbn [append]. now rewrite IH.
Qed.

Lemma fold_enhance_line (keywords : list string) (lines : list string) :
  forall acc,
    fold_left (enhance_line keywords) lines acc
    = acc ++ map (enhanced keywords) lines.
Proof.
  induction lines as [|l lines IH]; intros acc; cbn [fold_left map].
  - now rewrite app_nil_r.
  - rewrite IH. unfold enhance_line, enhanced.
    destruct (nonempty (strip l)); now rewrite <- app_assoc.
Qed.

Lemma add_seo_elements_by_line (content : string)
    (keywords : option (list string)) :
  add_seo_elements content keywords
  = join_lines
      (map (enhanced (match keywords with Some ks => ks | None => [] end))
           (split_lines content)).
Proof.
  unfold add_seo_elements. rewrite fold_enhance_line. cbn [app].
  destruct keywords as [[|k ks]|]; reflexivity.
Qed.

Lemma map_enhanced_id (keywords : list string) (lines : list string) :
  (forall line, In line lines -> enhanced keywords line = line) ->
  map (enhanced keywords) lines = lines.
Proof.
  induction lines as [|l lines IH]; intros H; cbn; [reflexivity|].
  rewrite H by now left. rewrite IH; [reflexivity|].
  intros line Hin. apply H. now right.
Qed.

(** X21.  Without keywords ([None] or an empty list) [add_seo_elements]
    returns the content unchanged, character for character. *)
Theorem add_seo_elements_without_keywords (content : string) :
  add_seo_elements content None = content
  /\ add_seo_elements content (Some []) = content.
Proof.
  split; rewrite add_seo_elements_by_line;
    (rewrite map_enhanced_id; [apply join_split_lines|]);
    intros line _; unfold enhanced; now destruct (nonempty (strip line)).
Qed.

Lemma contains_empty (s : string) : contains "" s = true.
Proof. rewrite contains_eq. now destruct s. Qed.

Lemma replace_from_absent (old new : string) (s : string) :
  contains old s = false -> replace_from old new 0 s = s.
Proof.
  induction s as [|c s IH]; intros H; [reflexivity|].
  rewrite contains_eq in H. apply orb_false_elim in H. destruct H as [Hp Hc].
  cbn [replace_from]. rewrite Hp, IH by exact Hc. reflexivity.
Qed.

Lemma replace_absent (s old new : string) :
  contains old s = false -> replace s old new = s.
Proof.
  intros H. unfold replace. destruct old as [|c old].
  - now rewrite contains_empty in H.
  - now apply replace_from_absent.
Qed.

Lemma fold_emphasise_absent (keywords : list string) (line : string) :
  (forall kw, In kw keywords -> contains kw line = false) ->
  fold_left emphasise keywords line = line.
Proof.
  induction keywords as [|k ks IH]; intros H; cbn [fold_left]; [reflexivity|].
  assert (Hk : emphasise line k = line).
  { unfold emphasise.
    destruct (contains (lower k) (lower line) && negb (startswith line "#"));
      [apply replace_absent, H; now left | reflexivity]. }
  rewrite Hk. apply IH. intros kw Hin. apply H. now right.
Qed.

(** X22.  The keyword test ignores case but the replacement does not: a
    content in which no keyword occurs with its exact spelling comes back
    unchanged, also when keywords occur in it in another case. *)
Theorem add_seo_elements_needs_exact_case (content : string)
    (keywords : list string) :
  (forall kw line,
      In kw keywords -> In line (split_lines content) ->
      contains kw line = false) ->
  add_seo_elements content (Some keywords) = content.
Proof.
  intros H. rewrite add_seo_elements_by_line.
  rewrite map_enhanced_id; [apply join_split_lines|].
  intros line Hin. unfold enhanced.
  destruct (nonempty (strip line)); [|reflexivity].
  apply fold_emphasise_absent. intros kw Hkw. now apply H.
Qed.

Lemma add_seo_elements_needs_exact_case_witness :
  add_seo_elements "ai tools for everyone" (Some ["AI"])
  = "ai tools for everyone".
Proof.
  refine (add_seo_elements_needs_exact_case "ai tools for everyone" ["AI"] _).
  intros kw line Hkw Hline.
  destruct Hkw as [<-|[]]. destruct Hline as [<-|[]]. reflexivity.
Defined.

Lemma has_newline_app (a b : string) :
  has_newline (a ++ b) = has_newline a || has_newline b.
Proof.
  induction a as [|c a IH]; cbn [append has_newline]; [reflexivity|].
  now rewrite IH, orb_assoc.
Qed.

Lemma split_lines_no_newline (s : string) :
  Forall (fun l => has_newline l = false) (split_lines s).
Proof.
  induction s as [|c s IH]; cbn [split_lines].
  - constructor; [reflexivity | constructor].
  - destruct (Ascii.eqb c newline) eqn:Hc.
    + constructor; [reflexivity | exact IH].
    + destruct (split_lines s) as [|l ls].
      * constructor; [cbn [has_newline]; now rewrite Hc | constructor].
      * inversion IH as [|? ? Hl Hls]; subst.
        constructor; [cbn [has_newline]; now rewrite Hc, Hl | exact Hls].
Qed.

Lemma split_lines_line (x : string) :
  has_newline x = false -> split_lines x = [x].
Proof.
  induction x as [|c x IH]; intros H; [reflexivity|].
  cbn [has_newline] in H. apply orb_false_elim in H. destruct H as [Hc Hx].
  cbn [split_lines]. now rewrite Hc, IH.
Qed.

Lemma split_lines_app_nl (x s : string) :
  has_newline x = false ->
  split_lines (x ++ nl ++ s) = x :: split_lines s.
Proof.
  induction x as [|c x IH]; intros H.
  - reflexivity.
  - cbn [has_newline] in H. apply orb_false_elim in H. destruct H as [Hc Hx].
    cbn [append split_lines]. now rewrite Hc, IH.
Qed.

(** Splitting a joined list of newline-free lines gives the list back. *)
Lemma split_join_lines (ls : list string) :
  ls <> [] ->
  Forall (fun l => has_newline l = false) ls ->
  split_lines (join_lines ls) = ls.
Proof.
  induction ls as [|x ls IH]; intros Hne Hall; [now destruct Hne|].
  inversion Hall as [|? ? Hx Hls]; subst.
  destruct ls as [|y ls].
  - now apply split_lines_line.
  - rewrite join_lines_cons, split_lines_app_nl by exact Hx.
    rewrite IH; [reflexivity | discriminate | exact Hls].
Qed.

Lemma lower_char_newline (c : ascii) :
  Ascii.eqb (lower_char c) newline = Ascii.eqb c newline.
Proof. destruct c as [[] [] [] [] [] [] [] []]; reflexivity. Qed.

Lemma has_newline_lower (s : string) : has_newline (lower s) = has_newline s.
Proof.
  induction s as [|c s IH]; cbn [lower has_newline]; [reflexivity|].
  now rewrite lower_char_newline, IH.
Qed.

Lemma prefix_has_newline (x : string) :
  forall y, prefix x y = true -> has_newline x = true -> has_newline y = true.
Proof.
  induction x as [|c x IH]; intros y Hp Hx; [discriminate|].
  destruct y as [|d y]; [discriminate|]. cbn [prefix] in Hp.
  destruct (ascii_dec c d) as [->|]; [|discriminate].
  cbn [has_newline] in Hx |- *.
  destruct (Ascii.eqb d newline); [reflexivity|].
  cbn [orb] in Hx |- *. now apply (IH y).
Qed.

Lemma contains_has_newline (x y : string) :
  contains x y = true -> has_newline x = true -> has_newline y = true.
Proof.
  induction y as [|d y IH]; intros Hc Hx; rewrite contains_eq in Hc;
    apply orb_prop in Hc; destruct Hc as [Hp|Hc].
  - now apply (prefix_has_newline x).
  - discriminate.
  - now apply (prefix_has_newline x).
  - cbn [has_newline]. rewrite IH by assumption. apply orb_true_r.
Qed.

Lemma replace_from_no_newline (old new : string) (s : string) :
  has_newline new = false ->
  forall skip,
    has_newline s = false -> has_newline (replace_from old new skip s) = false.
Proof.
  intros Hnew. induction s as [|c s IH]; intros skip Hs; [reflexivity|].
  cbn [has_newline] in Hs. apply orb_false_elim in Hs. destruct Hs as [Hc Hs].
  cbn [replace_from]. destruct skip as [|k]; [|now apply IH].
  destruct (prefix old (String c s)).
  - rewrite has_newline_app, Hnew. now apply IH.
  - cbn [has_newline]. rewrite Hc. now apply IH.
Qed.

Lemma insert_everywhere_no_newline (new s : string) :
  has_newline new = false ->
  has_newline s = false -> has_newline (insert_everywhere new s) = false.
Proof.
  intros Hnew. induction s as [|c s IH]; intros Hs; [exact Hnew|].
  cbn [has_newline] in Hs. apply orb_false_elim in Hs. destruct Hs as [Hc Hs].
  cbn [insert_everywhere]. rewrite has_newline_app, Hnew.
  cbn [has_newline orb]. rewrite Hc. now apply IH.
Qed.

Lemma emphasise_no_newline (line keyword : string) :
  has_newline line = false -> has_newline (emphasise line keyword) = false.
Proof.
  intros Hline. unfold emphasise.
  destruct (contains (lower keyword) (lower line)) eqn:Hc; [|exact Hline].
  destruct (negb (startswith line "#")); [|exact Hline]. cbn [andb].
  assert (Hkw : has_newline keyword = false).
  { destruct (has_newline keyword) eqn:Hk; [|reflexivity].
    rewrite <- has_newline_lower in Hk.
    pose proof (contains_has_newline _ _ Hc Hk) as H.
    rewrite has_newline_lower in H. congruence. }
  assert (Hnew : has_newline ("**" ++ keyword ++ "**") = false).
  { rewrite !has_newline_app, Hkw. reflexivity. }
  unfold replace. destruct keyword as [|k ks].
  - now apply insert_everywhere_no_newline.
  - now apply replace_from_no_newline.
Qed.

Lemma enhanced_no_newline (keywords : list string) (line : string) :
  has_newline line = false -> has_newline (enhanced keywords line) = false.
Proof.
  intros Hline. unfold enhanced.
  destruct (nonempty (strip line)); [|exact Hline].
  revert line Hline. induction keywords as [|k ks IH]; intros line Hline.
  - exact Hline.
  - cbn [fold_left]. apply IH. now apply emphasise_no_newline.
Qed.

Lemma enhanced_header (keywords : list string) (line : string) :
  startswith line "#" = true -> enhanced keywords line = line.
Proof.
  intros Hh. unfold enhanced. destruct (nonempty (strip line)); [|reflexivity].
  induction keywords as [|k ks IH]; [reflexivity|].
  cbn [fold_left]. unfold emphasise at 2. rewrite Hh.
  rewrite andb_false_r. exact IH.
Qed.

(** X23.  [add_seo_elements] works line by line and keeps the line
    structure: the lines of its output are the lines of the content, each
    one processed on its own, so their number is unchanged; blank lines
    and lines starting with "#" are left exactly as they are. *)
Theorem add_seo_elements_keeps_lines (content : string)
    (keywords : option (list string)) :
  split_lines (add_seo_elements content keywords)
  = map (enhanced (match keywords with Some ks => ks | None => [] end))
        (split_lines content)
  /\ length (split_lines (add_seo_elements content keywords))
     = length (split_lines content)
  /\ (forall line,
        strip line = "" \/ startswith line "#" = true ->
        enhanced (match keywords with Some ks => ks | None => [] end) line
        = line).
Proof.
  assert (H : split_lines (add_seo_elements content keywords)
              = map (enhanced (match keywords with
                               | Some ks => ks | None => [] end))
                    (split_lines content)).
  { rewrite add_seo_elements_by_line. apply split_join_lines.
    - pose proof (split_lines_nonempty content).
      destruct (split_lines content); [contradiction | discriminate].
    - pose proof (split_lines_no_newline content) as Hall.
      induction Hall as [|l ls Hl _ IH]; cbn [map]; constructor; auto.
      now apply enhanced_no_newline. }
  split; [exact H|]. split.
  - rewrite H. apply length_map.
  - intros line [Hblank|Hheader].
    + unfold enhanced. now rewrite Hblank.
    + now apply enhanced_header.
Qed.

Lemma format_line_acc (acc : list string) (line : string) :
  format_line acc line = acc ++ formatted line.
Proof.
  unfold formatted, format_line.
  destruct (nonempty (strip line)); [|now rewrite app_nil_r].
  destruct (startswith (strip line) "**" && endswith (strip line) "**");
    [|destruct (startswith (strip line) "- ")];
    now rewrite <- app_assoc.
Qed.

Lemma fold_format_line (lines : list string) :
  forall acc,
    fold_left format_line lines acc = acc ++ flat_map formatted lines.
Proof.
  induction lines as [|l lines IH]; intros acc; cbn [fold_left flat_map].
  - now rewrite app_nil_r.
  - now rewrite IH, format_line_acc, <- app_assoc.
Qed.

Lemma formatted_blank (line : string) : strip line = "" -> formatted line = [].
Proof. intros H. unfold formatted, format_line. now rewrite H. Qed.

(** X24.  A content all of whose lines are blank (empty or white space
    only), formatted without a title, gives the empty string. *)
Theorem format_blog_post_blank_content (content : string)
    (title : option string) :
  (forall line, In line (split_lines content) -> strip line = "") ->
  title = None \/ title = Some "" ->
  format_blog_post content title = "".
Proof.
  intros Hblank Htitle. unfold format_blog_post. rewrite fold_format_line.
  assert (Hflat : flat_map formatted (split_lines content) = []).
  { induction (split_lines content) as [|l ls IH]; [reflexivity|].
    cbn [flat_map]. rewrite formatted_blank by (apply Hblank; now left).
    apply IH. intros line Hin. apply Hblank. now right. }
  rewrite Hflat. destruct Htitle as [->| ->]; reflexivity.
Qed.

Lemma format_blog_post_blank_content_witness :
  format_blog_post ("  " ++ nl ++ nl ++ " ")%string None = "".
Proof.
  refine (format_blog_post_blank_content ("  " ++ nl ++ nl ++ " ")%string
            None _ _).
  - intros line Hin. vm_compute in Hin.
    destruct Hin as [<-|[<-|[<-|[]]]]; reflexivity.
  - left. reflexivity.
Defined.

Lemma string_append_nil_r (s : string) : (s ++ "")%string = s.
Proof. induction s as [|c s IH]; cbn; [reflexivity | now rewrite IH]. Qed.

Lemma join_lines_snoc (A : list string) (y : string) :
  A <> [] -> join_lines (A ++ [y]) = (join_lines A ++ nl ++ y)%string.
Proof.
  induction A as [|x A IH]; intros Hne; [now destruct Hne|].
  destruct A as [|x' A].
  - reflexivity.
  - cbn [app] in IH |- *. rewrite !join_lines_cons.
    rewrite IH by discriminate. now rewrite string_append_assoc.
Qed.

(** A list of emitted lines is empty or ends with a line followed by an
    empty line. *)
Lemma ends_blank_app (A B : list string) :
  (A = [] \/ exists A' x, A = A' ++ [x; ""%string]) ->
  (B = [] \/ exists B' x, B = B' ++ [x; ""%string]) ->
  A ++ B = [] \/ exists C x, A ++ B = C ++ [x; ""%string].
Proof.
  intros HA [->|(B' & x & ->)].
  - now rewrite app_nil_r.
  - right. exists (A ++ B'), x. now rewrite app_assoc.
Qed.

Lemma formatted_ends_blank (line : string) :
  formatted line = [] \/ exists A x, formatted line = A ++ [x; ""%string].
Proof.
  unfold formatted, format_line.
  destruct (nonempty (strip line)); [right | now left].
  exists []. cbn [app].
  destruct (startswith (strip line) "**" && endswith (strip line) "**");
    [|destruct (startswith (strip line) "- ")]; eexists; reflexivity.
Qed.

(** X25.  Whatever the content and the title, the result of
    [format_blog_post] is either empty or ends with a newline: every
    emitted line, the title included, is followed by an empty line. *)
Theorem format_blog_post_ends_with_newline (content : string)
    (title : option string) :
  format_blog_post content title = ""
  \/ exists body, format_blog_post content title = (body ++ nl)%string.
Proof.
  unfold format_blog_post. rewrite fold_format_line.
  match goal with
  | |- context [join_lines (?T ++ ?F)] =>
      assert (H : T ++ F = [] \/ exists C x, T ++ F = C ++ [x; ""%string])
  end.
  { apply ends_blank_app.
    - destruct title as [ttl|]; [|now left].
      destruct (nonempty ttl); [right | now left].
      exists []. eexists. reflexivity.
    - induction (split_lines content) as [|l ls IH]; [now left|].
      cbn [flat_map]. apply ends_blank_app; [apply formatted_ends_blank | exact IH]. }
  destruct H as [->|(C & x & ->)]; [now left|].
  right. exists (join_lines (C ++ [x])).
  change (C ++ [x; ""%string]) with (C ++ [x] ++ [""%string]).
  rewrite app_assoc, join_lines_snoc.
  - now rewrite string_append_nil_r.
  - destruct C; discriminate.
Qed.

Lemma endswith_app (a p : string) : endswith (a ++ p) p = true.
Proof.
  induction a as [|c a IH].
  - cbn [append]. destruct p; cbn [endswith]; now rewrite String.eqb_refl.
  - cbn [append endswith]. rewrite IH. apply orb_true_r.
Qed.

Lemma substring_0_app (x y : string) :
  substring 0 (String.length x) (x ++ y) = x.
Proof.
  induction x as [|c x IH]; cbn; [now destruct y | now rewrite IH].
Qed.

(** X26.  A line that, once stripped, is some text between two pairs of
    asterisks becomes a level-2 heading with that text, followed by an
    empty line; the text may be empty, and the degenerate lines "**" and
    "***", whose asterisks serve as both opening and closing pair, give
    the empty heading too. *)
Theorem format_blog_post_heading (line x : string) :
  strip line = ("**" ++ x ++ "**")%string ->
  formatted line = [("## " ++ x)%string; ""%string]
  /\ formatted "**" = ["## "%string; ""%string]
  /\ formatted "***" = ["## "%string; ""%string].
Proof.
  intros H. split; [|split; reflexivity].
  unfold formatted, format_line. rewrite H.
  change (nonempty ("**" ++ x ++ "**")) with true. cbn iota.
  unfold startswith. rewrite prefix_app.
  replace (endswith ("**" ++ x ++ "**") "**") with true
    by (symmetry; rewrite <- string_append_assoc; apply endswith_app).
  cbn [andb app]. unfold slice_2_m2.
  replace (String.length ("**" ++ x ++ "**") - 4) with (String.length x)
    by (rewrite !string_length_append; cbn; lia).
  change (substring 2 (String.length x) ("**" ++ x ++ "**"))
    with (substring 0 (String.length x) (x ++ "**")).
  now rewrite substring_0_app.
Qed.

Lemma format_blog_post_heading_witness :
  formatted "  **Key Points** "
  = [("## " ++ "Key Points")%string; ""%string].
Proof.
  refine (proj1 (format_blog_post_heading "  **Key Points** " "Key Points" _)).
  reflexivity.
Defined.

(** ** The demo and its preview *)

Lemma substring_0_length (n : nat) :
  forall s, n <= String.length s ->
    String.length (substring 0 n s) = n /\ prefix (substring 0 n s) s = true.
Proof.
  induction n as [|n IH]; intros s Hn.
  - destruct s; split; reflexivity.
  - destruct s as [|c s]; [cbn in Hn; lia|].
    cbn in Hn. destruct (IH s) as [Hl Hp]; [lia|].
    cbn [substring String.length prefix]. rewrite Hl. split; [reflexivity|].
    destruct (ascii_dec c c) as [_|Hne]; [exact Hp | now destruct Hne].
Qed.

(** X27.  The preview printed by the demo is never longer than 503
    characters: a content of at most 500 characters is shown as it is, a
    longer one is cut to its first 500 characters followed by "...". *)
Theorem preview_is_bounded (content : string) :
  String.length (preview content) <= 503
  /\ (String.length content <= 500 -> preview content = content)
  /\ (500 < String.length content ->
      exists head,
        preview content = (head ++ "...")%string
        /\ String.length head = 500
        /\ prefix head content = true).
Proof.
  unfold preview.
  destruct (500 <? String.length content)%nat eqn:E.
  - apply Nat.ltb_lt in E.
    destruct (substring_0_length 500 content) as [Hl Hp]; [lia|].
    split; [|split].
    + rewrite string_length_append, Hl. cbn. lia.
    + lia.
    + intros _. exists (substring 0 500 content). auto.
  - apply Nat.ltb_ge in E. split; [lia|]. split; [reflexivity | lia].
Qed.

Lemma run_trace_numbered (w : SequentialWorkflow) (initial_input : string)
    (t : trace) :
  exists inputs,
    fst (run w initial_input t) = t ++ numbered 0 inputs
    /\ length inputs <= length (agents w).
Proof.
  destruct (loop_numbered (length (agents w)) (agents w) 0
              (mkLoop [] initial_input)) as (inputs & Htr & Hlen & _).
  exists inputs. rewrite run_frame. cbn [fst]. rewrite run_fst, Htr. auto.
Qed.

Lemma create_blog_trace
    (initialize : ResearchToBlogOrchestrator -> outcome ResearchToBlogOrchestrator)
    (self : ResearchToBlogOrchestrator) (tp : string) (t : trace) :
  exists inputs,
    fst (create_blog_from_topic initialize self tp t) = t ++ numbered 0 inputs
    /\ length inputs <= 2.
Proof.
  unfold create_blog_from_topic, bind, lift, ret, SequentialWorkflow_init.
  assert (Hnil : exists inputs : list string,
             t = t ++ numbered 0 inputs /\ length inputs <= 2)
    by (exists []; cbn; rewrite app_nil_r; auto).
  destruct (negb (truthy (research_agent self))
            || negb (truthy (blog_agent self)));
    [destruct (initialize self) as [self'|e]; [|exact Hnil]|];
    match goal with
    | |- context [run ?w tp t] =>
        destruct (run_trace_numbered w tp t) as (inputs & Htr & Hlen);
        destruct (run w tp t) as [t' [rs|e]]; cbn [fst] in Htr |- *;
        exists inputs; auto
    end.
Qed.

(** X28.  [demo_orchestration] never raises, and its [finally] always
    runs: after at most two agent calls it tries to close exactly the
    agents that [initialize] left in the orchestrator - also when
    [initialize] itself or a stage of the workflow raised. *)
Theorem demo_orchestration_always_cleans_up
    (initialize_st :
       ResearchToBlogOrchestrator -> ResearchToBlogOrchestrator * outcome unit)
    (t : trace) :
  exists inputs,
    length inputs <= 2
    /\ demo_orchestration initialize_st t
       = (t ++ numbered 0 inputs
            ++ close_call Research
                 (research_agent (fst (initialize_st ResearchToBlogOrchestrator_init)))
            ++ close_call Blog
                 (blog_agent (fst (initialize_st ResearchToBlogOrchestrator_init))),
          Returned tt).
Proof.
  unfold demo_orchestration, create_blog_from_topic_st.
  cbn [research_agent blog_agent ResearchToBlogOrchestrator_init truthy negb orb].
  destruct (create_blog_trace (initialize_of initialize_st)
              (mkOrchestrator None None) demo_topic t)
    as (inputs & Htr & Hlen).
  exists inputs. split; [exact Hlen|].
  change ResearchToBlogOrchestrator_init with (mkOrchestrator None None).
  destruct (create_blog_from_topic (initialize_of initialize_st)
              (mkOrchestrator None None) demo_topic t) as [t' o].
  cbn [fst] in Htr. subst t'.
  rewrite cleanup_trace. now rewrite <- app_assoc.
Qed.

(** ** [AgentConfig] *)

(** X29.  The validators and the lists of missing settings agree:
    [validate] holds exactly when [get_missing_config] is empty, the same
    for the OpenAI pair, and [validate_all] holds exactly when both lists
    are empty. *)
Theorem validate_iff_nothing_missing (self : AgentConfig.t) :
  (AgentConfig.validate self = true
   <-> AgentConfig.get_missing_config self = [])
  /\ (AgentConfig.validate_openai self = true
      <-> AgentConfig.get_missing_openai_config self = [])
  /\ (AgentConfig.validate_all self = true
      <-> AgentConfig.get_missing_ai_foundry_config self = []
          /\ AgentConfig.get_missing_openai_config self = []).
Proof.
  unfold AgentConfig.validate_all, AgentConfig.validate,
         AgentConfig.validate_ai_foundry, AgentConfig.validate_openai,
         AgentConfig.get_missing_config,
         AgentConfig.get_missing_ai_foundry_config,
         AgentConfig.get_missing_openai_config.
  destruct (AgentConfig.given (AgentConfig.project_endpoint self)),
           (AgentConfig.given (AgentConfig.model_deployment_name self)),
           (AgentConfig.given (AgentConfig.openai_endpoint self)),
           (AgentConfig.given (AgentConfig.openai_deployment_name self));
    cbn; repeat split; intros; try discriminate; try reflexivity;
    try (destruct H; discriminate).
Qed.

(** X30.  A setting is reported missing exactly when it is unset or
    empty: each of the four names is in its list if and only if its
    variable has no non-empty value. *)
Theorem missing_lists_name_unset_settings (self : AgentConfig.t) :
  (In "AZURE_AI_PROJECT_ENDPOINT"%string (AgentConfig.get_missing_config self)
   <-> AgentConfig.given (AgentConfig.project_endpoint self) = false)
  /\ (In "AZURE_AI_MODEL_DEPLOYMENT_NAME"%string
         (AgentConfig.get_missing_config self)
      <-> AgentConfig.given (AgentConfig.model_deployment_name self) = false)
  /\ (In "AZURE_OPENAI_ENDPOINT"%string
         (AgentConfig.get_missing_openai_config self)
      <-> AgentConfig.given (AgentConfig.openai_endpoint self) = false)
  /\ (In "AZURE_OPENAI_CHAT_DEPLOYMENT_NAME"%string
         (AgentConfig.get_missing_openai_config self)
      <-> AgentConfig.given (AgentConfig.openai_deployment_name self) = false).
Proof.
  unfold AgentConfig.get_missing_config,
         AgentConfig.get_missing_ai_foundry_config,
         AgentConfig.get_missing_openai_config.
  destruct (AgentConfig.given (AgentConfig.project_endpoint self)),
           (AgentConfig.given (AgentConfig.model_deployment_name self)),
           (AgentConfig.given (AgentConfig.openai_endpoint self)),
           (AgentConfig.given (AgentConfig.openai_deployment_name self));
    cbn; repeat split; intros; try discriminate; try reflexivity; auto;
    repeat match goal with
           | H : _ \/ _ |- _ => destruct H
           | H : False |- _ => destruct H
           | H : _ = _ |- _ => discriminate H
           end.
Qed.
